(** * Policy-gated checkout: a shallow embedding of [src/App.tsx]

    The development follows the component top to bottom: the sample policy
    matrix, the helpers ([hhmm], [withinWindow], [genRID], [csvEscape]), the
    component state, the values derived from it on each render (total, policy
    snapshot, gate flags, quote validity, artifacts, gate message) and the
    auto-fallback effect.  The earlier revision of the component, which has no
    quote lock, lives in [Module Earlier].

    Modelling conventions.
    - A JavaScript [number] is an exact rational ([Q]).  Every finite double
      is a rational; the rounding error of the individual double operations is
      not modelled, so a total computed here can differ from the program's
      by a hundredth.  The properties read a total or a rounded value as it
      is compared, copied or printed; none states a bound on a rounding
      error that holds of rationals only.  [Module Double] has the total
      and the fallback roundings on binary64 numbers, for replaying inputs.
      Division by zero, which in JavaScript yields an infinity or NaN and
      makes every [<=] against a finite bound false, is written out where
      the source divides.
    - [Math.round] rounds half up: [floor (x + 1/2)].
    - A [Date] is the record of the accessors the component reads.
    - Strings are [string]; JavaScript compares them by code unit, which for
      the ASCII strings handled here is [String.leb]. *)

From Stdlib Require Import ZArith QArith Qround Qabs Qminmax.
From Stdlib Require Import List String Ascii Bool Lia Lqa DecimalString DecimalNat.
From Stdlib Require Floats.
Import ListNotations.

Open Scope string_scope.

(* ------------------------------------------------------------------ *)
(** ** JavaScript primitives used by the component *)

Module JS.

Definition number := Q.

Definition Math_round (x : number) : number :=
  inject_Z (Qfloor (x + (1 # 2))).

Definition Math_abs (x : number) : number := Qabs x.

Definition Math_max (x y : number) : number := Qmax x y.

(** [x <= y], [x > y] and [x === y] on numbers. *)
Definition le (x y : number) : bool := Qle_bool x y.
Definition gt (x y : number) : bool := negb (Qle_bool x y).
Definition strict_eq (x y : number) : bool := Qeq_bool x y.

(** [String(n)] for a non-negative integer and for an integer. *)
Definition String_of_nat (n : nat) : string :=
  NilEmpty.string_of_uint (Nat.to_uint n).

Definition String_of_Z (z : Z) : string :=
  NilZero.string_of_int (Z.to_int z).

Fixpoint repeat_char (c : ascii) (n : nat) : string :=
  match n with
  | O => ""
  | S k => String c (repeat_char c k)
  end.

(** [s.padStart(target, c)] with a one-character fill string. *)
Definition padStart (target : nat) (c : ascii) (s : string) : string :=
  repeat_char c (target - String.length s) ++ s.

(** [s.split(c)] with a one-character separator: never empty. *)
Fixpoint split (c : ascii) (s : string) : list string :=
  match s with
  | "" => [""]
  | String a rest =>
      if Ascii.eqb a c then "" :: split c rest
      else match split c rest with
           | [] => [String a ""]
           | h :: t => String a h :: t
           end
  end.

(** [s.slice(0, n)]. *)
Definition slice0 (n : nat) (s : string) : string := substring 0 n s.

(** [xs.find(p)]: first element satisfying [p], or [undefined]. *)
Definition find {A} (p : A -> bool) (xs : list A) : option A :=
  List.find p xs.

(** [Array.from(new Set(xs))]: duplicates dropped, first occurrences kept
    in insertion order. *)
Fixpoint set_insert (seen : list string) (xs : list string) : list string :=
  match xs with
  | [] => []
  | x :: rest =>
      if existsb (String.eqb x) seen then set_insert seen rest
      else x :: set_insert (x :: seen) rest
  end.

Definition Array_from_Set (xs : list string) : list string :=
  set_insert [] xs.

(** A [Date], seen through the accessors the component calls.  [getMonth]
    is zero-based, as in JavaScript. *)
Record Date := mkDate {
  getTime : Z;
  getFullYear : Z;
  getMonth : nat;
  getDate : nat;
  getHours : nat;
  getMinutes : nat;
  toISOString : string
}.

(** The ranges the accessors of a valid [Date] stay in; the year range is
    the one in which [getFullYear] prints as four digits. *)
Definition valid_clock (d : Date) : Prop :=
  (getHours d < 24)%nat /\ (getMinutes d < 60)%nat.

Definition valid_calendar (d : Date) : Prop :=
  (1000 <= getFullYear d <= 9999)%Z /\ (getMonth d < 12)%nat
  /\ (1 <= getDate d <= 31)%nat.

End JS.

Import JS.

(* ------------------------------------------------------------------ *)
(** ** Data model *)

Inductive OnOff := ON | OFF.

Definition OnOff_eqb (a b : OnOff) : bool :=
  match a, b with
  | ON, ON | OFF, OFF => true
  | _, _ => false
  end.

Module PolicyRow.
Record t := mk {
  version : string;
  country : string;
  use_case : string;
  instrument : string;
  chain : string;
  allow : OnOff;
  max_txn_local : number;
  daily_cap_local : number;
  monthly_cap_local : number;
  local_currency : string;
  time_window_local : string;
  required_disclosures : list string;
  kyc_level : string;
  travel_rule_required : bool;
  sanctions_screen : bool;
  allowed_mccs : string;
  fallback_on_fail : string;
  effective_from : string;
  effective_to : option string;
  approver : string;
  notes : option string
}.
End PolicyRow.

Module PolicySnapshot.
Record t := mk {
  on_off : OnOff;
  max_per_txn_local : number;
  daily_cap_local : number;
  time_window_local : string;
  required_disclosures : list string;
  kyc_level : string;
  travel_rule_applied : bool;
  sanctions_screen : string
}.
End PolicySnapshot.

(** The sample policy matrix of the component. *)
Definition POLICY_MATRIX : list PolicyRow.t :=
  [ PolicyRow.mk "JP-1.4" "JP" "Domestic Retail" "Tochika" "issuer-ledger" ON
      15000 30000 90000 "JPY" "09:00-20:00" ["JP-DISC-01"; "JP-DISC-03"]
      "partner" true true "5311|5732|5812" "Card" "2025-08-01" None
      "Risk&Compliance"
      (Some "Fail-closed outside window; receipts embed policy snapshot");
    PolicyRow.mk "JP-1.4" "JP" "Domestic Retail" "USDC" "allowlisted" ON
      5000 15000 45000 "JPY" "09:00-20:00" ["JP-DISC-01"; "JP-DISC-04"]
      "partner" true true "5311|5732|5812" "Card" "2025-08-01" None
      "Risk&Compliance"
      (Some "USDC only via licensed aggregator; merchant settles in JPY");
    PolicyRow.mk "HK-0.9" "HK" "Inbound (JP→HK)" "USDC" "allowlisted" OFF
      0 0 0 "HKD" "10:00-18:00" ["HK-DISC-02"]
      "partner" true true "*" "Card" "2025-08-01" None
      "Legal"
      (Some "HK regime evolving; use two-leg fiat to HKD payout");
    PolicyRow.mk "JP-1.4" "JP" "Digital Vouchers" "Points" "program-api" ON
      8000 15000 45000 "JPY" "00:00-24:00" ["JP-DISC-02"]
      "none" false false "5812|5942" "Card" "2025-08-01" None
      "Product"
      (Some "Points only where program T&Cs allow; no cash-out unless permitted")
  ].

(* ------------------------------------------------------------------ *)
(** ** Helpers *)

Definition hhmm (date : Date) : string :=
  let h := padStart 2 "0" (String_of_nat (getHours date)) in
  let m := padStart 2 "0" (String_of_nat (getMinutes date)) in
  h ++ ":" ++ m.

(** [start] and [end] are the first two pieces of the window split at the
    dash: [end] is [undefined] when the window holds no dash, and a string
    compared with [undefined] is false. *)
Definition withinWindow (now : Date) (window : string) : bool :=
  let nowHM := hhmm now in
  match split "-" window with
  | start :: end_ :: _ => String.leb start nowHM && String.leb nowHM end_
  | _ => false
  end.

Definition genRID (country : string) (now : Date) (seq : nat) : string :=
  let y := String_of_Z (getFullYear now) in
  let m := padStart 2 "0" (String_of_nat (getMonth now + 1)) in
  let d := padStart 2 "0" (String_of_nat (getDate now)) in
  "RID-" ++ country ++ "-" ++ y ++ m ++ d ++ "-"
    ++ padStart 6 "0" (String_of_nat seq).

Definition dquote : ascii := ascii_of_nat 34.
Definition backslash : ascii := ascii_of_nat 92.
Definition newline : ascii := ascii_of_nat 10.

(** The character class of the test in [csvEscape].  The source writes the
    regular expression with two backslashes before the n, so the class holds
    the double quote, the comma, the backslash and the letter n. *)
Definition csv_special (c : ascii) : bool :=
  Ascii.eqb c dquote || Ascii.eqb c "," || Ascii.eqb c backslash
  || Ascii.eqb c "n".

Fixpoint string_exists (p : ascii -> bool) (s : string) : bool :=
  match s with
  | "" => false
  | String c rest => p c || string_exists p rest
  end.

(** The global replace of [csvEscape]: every double quote is doubled. *)
Fixpoint double_quotes (s : string) : string :=
  match s with
  | "" => ""
  | String c rest =>
      if Ascii.eqb c dquote then String dquote (String dquote (double_quotes rest))
      else String c (double_quotes rest)
  end.

Definition csvEscape (s : string) : string :=
  if string_exists csv_special s
  then String dquote (double_quotes s ++ String dquote "")
  else s.

(** [n.toString()] for a number with at most two decimals and below 10^21,
    where JavaScript prints no exponent: sign, integer part, then the
    fraction without its trailing zero.  The totals and rounded amounts of
    the artifacts are such numbers.  On any other number the text is the
    one of the number cut to two decimals, which is not what JavaScript
    prints; nothing below reads the digits of such a text. *)
Definition number_toString (x : number) : string :=
  let h := Qfloor (x * 100) in
  let a := Z.abs h in
  let ip := (a / 100)%Z in
  let fp := Z.to_nat (a mod 100) in
  (if (h <? 0)%Z then "-" else "")
  ++ String_of_Z ip
  ++ (if (fp =? 0)%nat then ""
      else "." ++ (if (fp mod 10 =? 0)%nat then String_of_nat (fp / 10)
                   else padStart 2 "0" (String_of_nat fp))).

(* ------------------------------------------------------------------ *)
(** ** Component state *)

Record AppState := mkState {
  jurisdiction : string;
  merchantName : string;
  tochikaJPY : number;
  usdcAmt : number;
  cardJPY : number;
  rateUSDCJPY : number;
  holdSec : number;
  slippageBps : number;
  now : Date;
  quoteLocked : bool;
  quoteRate : option number;
  quoteStart : option Date;
  autoFallback : bool
}.

(** The two state writes of the auto-fallback effect. *)
Definition setCardJPY (f : number -> number) (st : AppState) : AppState :=
  mkState (jurisdiction st) (merchantName st) (tochikaJPY st) (usdcAmt st)
    (f (cardJPY st)) (rateUSDCJPY st) (holdSec st) (slippageBps st) (now st)
    (quoteLocked st) (quoteRate st) (quoteStart st) (autoFallback st).

Definition setUsdcAmt (v : number) (st : AppState) : AppState :=
  mkState (jurisdiction st) (merchantName st) (tochikaJPY st) v
    (cardJPY st) (rateUSDCJPY st) (holdSec st) (slippageBps st) (now st)
    (quoteLocked st) (quoteRate st) (quoteStart st) (autoFallback st).

Definition setJurisdiction (j : string) (st : AppState) : AppState :=
  mkState j (merchantName st) (tochikaJPY st) (usdcAmt st)
    (cardJPY st) (rateUSDCJPY st) (holdSec st) (slippageBps st) (now st)
    (quoteLocked st) (quoteRate st) (quoteStart st) (autoFallback st).

(** The handlers of the two quote buttons; [today] is the [new Date()] read
    by the handler. *)
Definition lockQuote (today : Date) (st : AppState) : AppState :=
  mkState (jurisdiction st) (merchantName st) (tochikaJPY st) (usdcAmt st)
    (cardJPY st) (rateUSDCJPY st) (holdSec st) (slippageBps st) (now st)
    true (Some (rateUSDCJPY st)) (Some today) (autoFallback st).

Definition resetQuote (st : AppState) : AppState :=
  mkState (jurisdiction st) (merchantName st) (tochikaJPY st) (usdcAmt st)
    (cardJPY st) (rateUSDCJPY st) (holdSec st) (slippageBps st) (now st)
    false None None (autoFallback st).

(** The value of [x ?? d]. *)
Definition nullish {A} (x : option A) (d : A) : A :=
  match x with
  | Some v => v
  | None => d
  end.

(* ------------------------------------------------------------------ *)
(** ** One render of the component

    [matrix] is the policy table the component closes over, [st] the state
    of the render and [clock] the reading of [new Date().getTime()] taken
    while the quote validity is computed. *)

Section Render.

Variable matrix : list PolicyRow.t.
Variable st : AppState.
Variable clock : Z.

(** The total, with the sum, the product and the rounding taken exactly;
    [Double.totalJPY] is the same expression on doubles. *)
Definition totalJPY : number :=
  Math_round ((tochikaJPY st + usdcAmt st * rateUSDCJPY st + cardJPY st) * 100)
  / 100.

(** Gate evaluation *)
Definition jpTochika : option PolicyRow.t :=
  find (fun r => String.eqb (PolicyRow.country r) "JP"
                 && String.eqb (PolicyRow.instrument r) "Tochika") matrix.

Definition jpUsdc : option PolicyRow.t :=
  find (fun r => String.eqb (PolicyRow.country r) "JP"
                 && String.eqb (PolicyRow.instrument r) "USDC") matrix.

(** [row && row.allow === "ON"]. *)
Definition row_is_on (row : option PolicyRow.t) : bool :=
  match row with
  | Some r => OnOff_eqb (PolicyRow.allow r) ON
  | None => false
  end.

Definition policyApplied : PolicySnapshot.t :=
  PolicySnapshot.mk
    (if row_is_on jpTochika || row_is_on jpUsdc then ON else OFF)
    (Math_max (nullish (option_map PolicyRow.max_txn_local jpTochika) 0)
              (nullish (option_map PolicyRow.max_txn_local jpUsdc) 0))
    (Math_max (nullish (option_map PolicyRow.daily_cap_local jpTochika) 0)
              (nullish (option_map PolicyRow.daily_cap_local jpUsdc) 0))
    (nullish (option_map PolicyRow.time_window_local jpTochika) "09:00-20:00")
    (Array_from_Set
       (nullish (option_map PolicyRow.required_disclosures jpTochika) []
        ++ nullish (option_map PolicyRow.required_disclosures jpUsdc) []))
    "partner"
    true
    "pass".

Definition windowOK : bool :=
  withinWindow (now st) (PolicySnapshot.time_window_local policyApplied).

Definition perTxnOK : bool :=
  le totalJPY (PolicySnapshot.max_per_txn_local policyApplied)
  || strict_eq (PolicySnapshot.max_per_txn_local policyApplied) 0.

Definition policyOK : bool :=
  OnOff_eqb (PolicySnapshot.on_off policyApplied) ON && windowOK && perTxnOK.

(** Quote validity *)
Definition elapsedSec (qs : Date) : number :=
  inject_Z (clock - getTime qs) / 1000.

Definition holdValid : bool :=
  if negb (quoteLocked st)
     || match quoteStart st with
        | Some qs => le (elapsedSec qs) (holdSec st)
        | None => false
        end
  then true else false.

(** With a locked rate of zero the quotient is an infinity or NaN, and the
    comparison with the finite bound is false. *)
Definition slippageWithin (locked : number) : bool :=
  if strict_eq locked 0 then false
  else le (Math_abs ((rateUSDCJPY st - locked) / locked) * 10000)
          (slippageBps st).

Definition slippageValid : bool :=
  negb (quoteLocked st)
  || match quoteRate st with
     | Some q => slippageWithin q
     | None => false
     end.

Definition quoteOK : bool := holdValid && slippageValid.

(** Auto-fallback effect: when the quote breaches or expires, the USDC leg
    is converted to card.  The result is the state after the effect ran.
    The two roundings are exact here; [Double.fallbackCard] has them on
    doubles. *)
Definition autoFallbackEffect : AppState :=
  if autoFallback st && quoteLocked st && negb quoteOK && gt (usdcAmt st) 0
  then
    let addJPY := Math_round (usdcAmt st * rateUSDCJPY st) in
    setUsdcAmt 0 (setCardJPY (fun prev => Math_round (prev + addJPY)) st)
  else st.

(** Build artifacts *)
Definition rid : string := genRID (jurisdiction st) (now st) 45.

Definition currencyLabel : string :=
  if String.eqb (jurisdiction st) "JP" then "JPY" else "HKD".

(** Gate message *)
Definition gateMessage : string :=
  if negb policyOK
  then (if OnOff_eqb (PolicySnapshot.on_off policyApplied) OFF
        then "Blocked: Policy OFF."
        else if negb windowOK then "Blocked: Outside time window."
        else if negb perTxnOK then "Blocked: Exceeds per-txn cap."
        else "Blocked: Policy rule.")
  else (if negb quoteOK
        then (if negb holdValid
              then "Blocked: Quote hold expired → fail-closed to card."
              else "Blocked: Slippage bound breached → fail-closed to card.")
        else "Approved (rules satisfied).").

End Render.

(* ------------------------------------------------------------------ *)
(** ** Artifacts *)

Module Receipt.
Record Payout := mkPayout {
  gross_jpy : number;
  fees_jpy : number;
  net_jpy : number;
  bank_last4 : string
}.

(** The receipt object, without its tender, counterparty and evidence
    blocks (constants and date or amount formatting that no payout figure
    flows through); [tochika_route] is the route of the first tender. *)
Record t := mk {
  receipt_id : string;
  reconciliation_id : string;
  order_id : string;
  timestamp : string;
  jurisdiction : string;
  policy_version : string;
  policy_hash : string;
  policy_snapshot : PolicySnapshot.t;
  merchant_id : string;
  merchant_name : string;
  tochika_route : string;
  payout : Payout
}.

(** The payout figures as [JSON.stringify] prints them in the download. *)
Definition gross_text (r : t) : string := number_toString (gross_jpy (payout r)).
Definition net_text (r : t) : string := number_toString (net_jpy (payout r)).
End Receipt.

Section Artifacts.

Variable matrix : list PolicyRow.t.
Variable st : AppState.

Definition receiptJSON : Receipt.t :=
  Receipt.mk
    ("rcp_" ++ slice0 10 (toISOString (now st)) ++ "_00123")
    (rid st)
    "ord_7f3a2c"
    (toISOString (now st))
    (jurisdiction st)
    "JP-1.4"
    "a9f1...c2"
    (policyApplied matrix)
    "MERCH-1029"
    (merchantName st)
    (if policyOK matrix st then "policy-approved" else "blocked")
    (Receipt.mkPayout (totalJPY st) 35 (Math_round (totalJPY st - 35)) "1234").

(** The columns of the reconciliation file up to [Bank_Account_Last4]. *)
Definition reconHeader : list string :=
  [ "RID"; "Order_ID"; "Receipt_ID"; "Merchant_ID"; "Merchant_Name";
    "Payout_Batch_ID"; "Payout_Date"; "Value_Date"; "Payout_Currency";
    "Amount_Gross"; "Fees_Aggregator"; "Fees_PSP"; "Fees_Mozgroup";
    "Amount_Net"; "Bank_Account_Last4" ].

Definition reconRow : list string :=
  map csvEscape
    [ rid st;
      Receipt.order_id receiptJSON;
      Receipt.receipt_id receiptJSON;
      "MERCH-1029";
      merchantName st;
      "POUT-2025-08-27-17";
      slice0 10 (toISOString (now st));
      "T+1";
      "JPY";
      number_toString (Math_round (totalJPY st));
      "20"; "10"; "5";
      number_toString (Math_round (totalJPY st - 35));
      "1234" ].

(** The cell of the reconciliation row under a header name. *)
Fixpoint lookup_column (name : string) (hdr row : list string) : option string :=
  match hdr, row with
  | h :: hdr', v :: row' =>
      if String.eqb h name then Some v else lookup_column name hdr' row'
  | _, _ => None
  end.

Definition reconField (name : string) : option string :=
  lookup_column name reconHeader reconRow.

End Artifacts.

(* ------------------------------------------------------------------ *)
(** ** Gate decisions *)

Inductive BlockedReason :=
| PolicyDisabled
| OutsideWindow
| CapExceeded
| QuoteExpired
| SlippageBreached.

Inductive GateDecision :=
| Approved
| Blocked (reason : BlockedReason).

(** The decision a gate message stands for.  The hyphen of the cap message
    is the ASCII one in the current revision and U+2011 in the earlier one;
    the catch-all messages of the two revisions stand for no decision. *)
Definition decision_of_message (m : string) : option GateDecision :=
  if String.eqb m "Approved (rules satisfied)." then Some Approved
  else if String.eqb m "Blocked: Policy OFF." then Some (Blocked PolicyDisabled)
  else if String.eqb m "Blocked: Outside time window."
       then Some (Blocked OutsideWindow)
  else if String.eqb m "Blocked: Exceeds per-txn cap."
          || String.eqb m "Blocked: Exceeds per‑txn cap."
       then Some (Blocked CapExceeded)
  else if String.eqb m "Blocked: Quote hold expired → fail-closed to card."
       then Some (Blocked QuoteExpired)
  else if String.eqb m "Blocked: Slippage bound breached → fail-closed to card."
       then Some (Blocked SlippageBreached)
  else None.

(** The precedence of the error taxonomy, written from its wording: the
    first failing check, in the order policy, window, cap, hold, slippage,
    names the reason. *)
Definition first_failing
    (on : OnOff) (window cap hold slippage : bool) : GateDecision :=
  match on with
  | OFF => Blocked PolicyDisabled
  | ON =>
      if negb window then Blocked OutsideWindow
      else if negb cap then Blocked CapExceeded
      else if negb hold then Blocked QuoteExpired
      else if negb slippage then Blocked SlippageBreached
      else Approved
  end.

(* ------------------------------------------------------------------ *)
(** ** The earlier revision of the component *)

Module Earlier.

Definition POLICY_MATRIX : list PolicyRow.t :=
  [ PolicyRow.mk "JP-1.4" "JP" "Domestic Retail" "Tochika" "issuer-ledger" ON
      15000 30000 90000 "JPY" "09:00-20:00" ["JP-DISC-01"; "JP-DISC-03"]
      "partner" true true "5311|5732|5812" "Card" "2025-08-01" None
      "Risk&Compliance"
      (Some "Fail-closed outside window; receipts embed policy snapshot");
    PolicyRow.mk "JP-1.4" "JP" "Domestic Retail" "USDC" "allowlisted" ON
      5000 15000 45000 "JPY" "09:00-20:00" ["JP-DISC-01"; "JP-DISC-04"]
      "partner" true true "5311|5732|5812" "Card" "2025-08-01" None
      "Risk&Compliance"
      (Some "USDC only via licensed aggregator; merchant settles in JPY");
    PolicyRow.mk "HK-0.9" "HK" "Inbound (JP→HK)" "USDC" "allowlisted" OFF
      0 0 0 "HKD" "10:00-18:00" ["HK-DISC-02"]
      "partner" true true "*" "Card" "2025-08-01" None
      "Legal"
      (Some "HK regime evolving; use two‑leg fiat to HKD payout");
    PolicyRow.mk "JP-1.4" "JP" "Digital Vouchers" "Points" "program-api" ON
      8000 15000 45000 "JPY" "00:00-24:00" ["JP-DISC-02"]
      "none" false false "5812|5942" "Card" "2025-08-01" None
      "Product"
      (Some "Points only where program T&Cs allow; no cash‑out unless permitted")
  ].

Record AppState := mkState {
  jurisdiction : string;
  merchantName : string;
  tochikaJPY : number;
  usdcAmt : number;
  cardJPY : number;
  rateUSDCJPY : number;
  holdSec : number;
  slippageBps : number;
  now : Date
}.

Section Render.

Variable matrix : list PolicyRow.t.
Variable st : AppState.

(** The total, taken exactly as in the current revision. *)
Definition totalJPY : number :=
  Math_round ((tochikaJPY st + usdcAmt st * rateUSDCJPY st + cardJPY st) * 100)
  / 100.

Definition jpTochika : option PolicyRow.t :=
  find (fun r => String.eqb (PolicyRow.country r) "JP"
                 && String.eqb (PolicyRow.instrument r) "Tochika") matrix.

Definition jpUsdc : option PolicyRow.t :=
  find (fun r => String.eqb (PolicyRow.country r) "JP"
                 && String.eqb (PolicyRow.instrument r) "USDC") matrix.

(** [row?.allow === "ON"]. *)
Definition allow_is_on (row : option PolicyRow.t) : bool :=
  match option_map PolicyRow.allow row with
  | Some a => OnOff_eqb a ON
  | None => false
  end.

Definition policyApplied : PolicySnapshot.t :=
  PolicySnapshot.mk
    (if allow_is_on jpTochika || allow_is_on jpUsdc then ON else OFF)
    (Math_max (nullish (option_map PolicyRow.max_txn_local jpTochika) 0)
              (nullish (option_map PolicyRow.max_txn_local jpUsdc) 0))
    (Math_max (nullish (option_map PolicyRow.daily_cap_local jpTochika) 0)
              (nullish (option_map PolicyRow.daily_cap_local jpUsdc) 0))
    (nullish (option_map PolicyRow.time_window_local jpTochika) "09:00-20:00")
    (Array_from_Set
       (nullish (option_map PolicyRow.required_disclosures jpTochika) []
        ++ nullish (option_map PolicyRow.required_disclosures jpUsdc) []))
    "partner"
    true
    "pass".

Definition windowOK : bool :=
  withinWindow (now st) (PolicySnapshot.time_window_local policyApplied).

Definition perTxnOK : bool :=
  le totalJPY (PolicySnapshot.max_per_txn_local policyApplied)
  || strict_eq (PolicySnapshot.max_per_txn_local policyApplied) 0.

Definition allowOverall : bool :=
  OnOff_eqb (PolicySnapshot.on_off policyApplied) ON && windowOK && perTxnOK.

Definition gateReason : string :=
  if allowOverall then "Approved (rules satisfied)."
  else "Blocked: "
       ++ (if OnOff_eqb (PolicySnapshot.on_off policyApplied) OFF
           then "Policy OFF."
           else if negb windowOK then "Outside time window."
           else if negb perTxnOK then "Exceeds per‑txn cap."
           else "Unknown.").

End Render.

End Earlier.

(** The inputs the two revisions share: the current state without its
    quote lock and fallback switch. *)
Definition earlier_inputs (st : AppState) : Earlier.AppState :=
  Earlier.mkState (jurisdiction st) (merchantName st) (tochikaJPY st)
    (usdcAmt st) (cardJPY st) (rateUSDCJPY st) (holdSec st) (slippageBps st)
    (now st).

(** The initial state of the component; [today] is the [new Date()] of the
    first render. *)
Definition initialState (today : Date) : AppState :=
  mkState "JP" "Sakura Electronics" 8000 20 500 (15075 # 100) 90 50 today
    false None None true.

Definition sampleDate : Date :=
  mkDate 1756263600000 2025 7 27 12 0 "2025-08-27T03:00:00.000Z".

(* ------------------------------------------------------------------ *)
(** ** The amounts in IEEE doubles

    The total and the two roundings of the auto-fallback effect on binary64
    numbers, with the operations of the source in their order, for
    replaying concrete inputs where the double result and the exact one
    part. *)

Module Double.
Import PrimFloat.
#[local] Open Scope float_scope.

Definition two52 : float := 4503599627370496.

(** The integer nearest to [x], ties to even: adding and taking away 2^52
    rounds a double below it to an integer; from 2^52 on every double is
    one. *)
Definition nearest_integer (x : float) : float :=
  if leb two52 (abs x) then x
  else if ltb x 0 then (x - two52) + two52
  else (x + two52) - two52.

Definition Math_floor (x : float) : float :=
  let t := nearest_integer x in
  if ltb x t then t - 1 else t.

(** [Math.round]: the nearest integer, a tie going up. *)
Definition Math_round (x : float) : float :=
  let f := Math_floor x in
  if leb 0.5 (x - f) then f + 1 else f.

Definition totalJPY (tochikaJPY usdcAmt cardJPY rateUSDCJPY : float) : float :=
  Math_round ((tochikaJPY + usdcAmt * rateUSDCJPY + cardJPY) * 100) / 100.

(** The card amount the auto-fallback effect writes. *)
Definition fallbackCard (usdcAmt cardJPY rateUSDCJPY : float) : float :=
  let addJPY := Math_round (usdcAmt * rateUSDCJPY) in
  Math_round (cardJPY + addJPY).

(** A checkout of half a hundredth of Tochika, one USDC at a rate of a
    half, and a card amount of a half; and two totals. *)
Definition tinyTochika : float := 5 / 1000.
Definition oneUsdc : float := 1.
Definition halfCard : float := 0.5.
Definition halfRate : float := 0.5.
Definition zero : float := 0.
Definition one : float := 1.
Definition two_and_a_hundredth : float := 201 / 100.

End Double.

(* ------------------------------------------------------------------ *)
(** ** Vocabulary of the properties *)

(** The instruments of the basket the component resolves a policy for. *)
Definition requested_instruments : list string := ["Tochika"; "USDC"].

Definition row_matches (j : string) (r : PolicyRow.t) : bool :=
  String.eqb (PolicyRow.country r) j
  && existsb (String.eqb (PolicyRow.instrument r)) requested_instruments.

Definition no_row_matches (matrix : list PolicyRow.t) (j : string) : bool :=
  forallb (fun r => negb (row_matches j r)) matrix.

Definition fail_closed (s : PolicySnapshot.t) : Prop :=
  PolicySnapshot.on_off s = OFF
  /\ PolicySnapshot.max_per_txn_local s == 0
  /\ PolicySnapshot.daily_cap_local s == 0.

(** The matrix without its Hong Kong row, and with nothing but it. *)
Definition matrix_without_HK : list PolicyRow.t :=
  filter (fun r => negb (String.eqb (PolicyRow.country r) "HK")) POLICY_MATRIX.

Definition matrix_only_HK : list PolicyRow.t :=
  filter (fun r => String.eqb (PolicyRow.country r) "HK") POLICY_MATRIX.

(** A state whose total is [t], for a whole number of yen. *)
Definition state_with_total (t : Z) : AppState :=
  mkState "JP" "Sakura Electronics" (inject_Z t) 0 0 (15075 # 100) 90 50
    sampleDate false None None true.

(** The lock fields of a state. *)
Definition lockState (st : AppState) : bool * option number * option Date :=
  (quoteLocked st, quoteRate st, quoteStart st).

(** The default state with the quote locked at [rate] and the current rate
    moved to [current]. *)
Definition locked_at (rate current : number) : AppState :=
  mkState "JP" "Sakura Electronics" 8000 20 500 current 90 50 sampleDate
    true (Some rate) (Some sampleDate) true.

(** The condition under which the effect writes to the state. *)
Definition fallbackFires (st : AppState) (clock : Z) : bool :=
  autoFallback st && quoteLocked st && negb (quoteOK st clock)
  && gt (usdcAmt st) 0.

(** The default state with a card amount of [card] and the quote locked at
    the current rate; [expiry_clock] reads the clock 91 seconds after the
    lock, one second past the hold. *)
Definition expired_with_card (card : number) : AppState :=
  mkState "JP" "Sakura Electronics" 8000 20 card (15075 # 100) 90 50 sampleDate
    true (Some (15075 # 100)) (Some sampleDate) true.

Definition expiry_clock : Z := getTime sampleDate + 91000.

(** The two-digit text [hhmm] and [genRID] pad hours, minutes, months and
    days to. *)
Definition two_digits (n : nat) : string := padStart 2 "0" (String_of_nat n).

(** A time of day as the component prints it. *)
Definition clockText (h m : nat) : string :=
  two_digits h ++ ":" ++ two_digits m.

Definition has_dash (s : string) : bool :=
  string_exists (fun c => Ascii.eqb c "-") s.

Definition comparison_eqb (a b : comparison) : bool :=
  match a, b with
  | Eq, Eq | Lt, Lt | Gt, Gt => true
  | _, _ => false
  end.

Definition minuteOfDay (h m : nat) : nat := 60 * h + m.

Definition timeOfDay (d : Date) : nat := minuteOfDay (getHours d) (getMinutes d).

(** The default state at the local time [h]:[m]. *)
Definition state_at (h m : nat) : AppState :=
  mkState "JP" "Sakura Electronics" 8000 20 500 (15075 # 100) 90 50
    (mkDate 1756263600000 2025 7 27 h m "2025-08-27T03:00:00.000Z")
    false None None true.

Definition is_digit (c : ascii) : bool :=
  (48 <=? nat_of_ascii c)%nat && (nat_of_ascii c <=? 57)%nat.

Fixpoint string_forall (p : ascii -> bool) (s : string) : bool :=
  match s with
  | "" => true
  | String c rest => p c && string_forall p rest
  end.

Definition all_digits (s : string) : bool := string_forall is_digit s.

(** The characters of a printed number: digits, the sign, the point. *)
Definition number_char (c : ascii) : bool :=
  is_digit c || Ascii.eqb c "-" || Ascii.eqb c ".".

(** The calendar date of a [Date] as the identifier carries it. *)
Definition dateText (d : Date) : string :=
  String_of_Z (getFullYear d) ++ two_digits (getMonth d + 1)
  ++ two_digits (getDate d).

(** The shape of an identifier for jurisdiction [j] with sequence text
    [seqno]: the prefix, the jurisdiction, eight digits of date and the
    sequence text, dash-separated. *)
Definition rid_format (j seqno s : string) : Prop :=
  exists date,
    s = "RID-" ++ j ++ "-" ++ date ++ "-" ++ seqno
    /\ String.length date = 8%nat /\ all_digits date = true.

(** A second checkout of the same day: another merchant, other amounts,
    three and a half hours later. *)
Definition laterCheckout : AppState :=
  mkState "JP" "Midori Books" 1200 0 300 (15075 # 100) 90 50
    (mkDate 1756276200000 2025 7 27 15 30 "2025-08-27T06:30:00.000Z")
    false None None true.

(** The four inputs the payout figures are computed from. *)
Definition amounts (st : AppState) : number * number * number * number :=
  (tochikaJPY st, usdcAmt st, cardJPY st, rateUSDCJPY st).

(** The default state at a rate of 150.76: the total is 11515.20. *)
Definition fractionalTotal : AppState :=
  mkState "JP" "Sakura Electronics" 8000 20 500 (15076 # 100) 90 50 sampleDate
    false None None true.

(** The rows of Japan. *)
Definition is_JP_row (r : PolicyRow.t) : bool :=
  String.eqb (PolicyRow.country r) "JP".

(* ------------------------------------------------------------------ *)
(** ** The rest of the component: exports *)

(** The CSV writer of the earlier revision: its character class holds the
    double quote, the comma and the line break. *)
Module EarlierCSV.

Definition csv_special (c : ascii) : bool :=
  Ascii.eqb c dquote || Ascii.eqb c "," || Ascii.eqb c newline.

Definition csvEscape (s : string) : string :=
  if string_exists csv_special s
  then String dquote (double_quotes s ++ String dquote "")
  else s.

End EarlierCSV.

Definition policyCSVHeader : list string :=
  [ "Version"; "Country"; "Use_Case"; "Instrument"; "Chain"; "Allow";
    "Max_Txn_Local"; "Daily_Cap_Local"; "Monthly_Cap_Local"; "Local_Currency";
    "Time_Window_Local"; "Required_Disclosures"; "KYC_Level";
    "TravelRule_Required"; "Sanctions_Screen"; "Allowed_MCCs";
    "Fallback_On_Fail"; "Effective_From"; "Effective_To"; "Approver"; "Notes" ].

(** [String(v)] of an allow flag and the Yes/No of a boolean column. *)
Definition OnOff_text (a : OnOff) : string :=
  match a with
  | ON => "ON"
  | OFF => "OFF"
  end.

Definition yesNo (b : bool) : string := if b then "Yes" else "No".

(** The cells of one row of the policy export, before escaping. *)
Definition policyCSVCells (r : PolicyRow.t) : list string :=
  [ PolicyRow.version r; PolicyRow.country r; PolicyRow.use_case r;
    PolicyRow.instrument r; PolicyRow.chain r; OnOff_text (PolicyRow.allow r);
    number_toString (PolicyRow.max_txn_local r);
    number_toString (PolicyRow.daily_cap_local r);
    number_toString (PolicyRow.monthly_cap_local r);
    PolicyRow.local_currency r;
    PolicyRow.time_window_local r;
    String.concat "|" (PolicyRow.required_disclosures r);
    PolicyRow.kyc_level r;
    yesNo (PolicyRow.travel_rule_required r);
    yesNo (PolicyRow.sanctions_screen r);
    PolicyRow.allowed_mccs r; PolicyRow.fallback_on_fail r;
    PolicyRow.effective_from r; nullish (PolicyRow.effective_to r) "";
    PolicyRow.approver r; nullish (PolicyRow.notes r) "" ].

Definition policyCSVLines (rows : list PolicyRow.t) : list string :=
  String.concat "," policyCSVHeader
  :: map (fun r => String.concat "," (map csvEscape (policyCSVCells r))) rows.

Definition buildPolicyCSV (rows : list PolicyRow.t) : string :=
  String.concat (String newline "") (policyCSVLines rows).

(** The asset columns of the reconciliation row: the USDC leg while it
    holds an amount, the card otherwise. *)
Definition assetInType (st : AppState) : string :=
  csvEscape (if gt (usdcAmt st) 0 then "USDC" else "Card").

Definition assetInChain (st : AppState) : string :=
  csvEscape (if gt (usdcAmt st) 0 then "allowlisted" else "—").

Definition assetInTXID (st : AppState) : string :=
  csvEscape (if gt (usdcAmt st) 0 then "0x...ab87" else "—").

(* ------------------------------------------------------------------ *)
(** ** Vocabulary of the further properties *)

Definition is_newline (c : ascii) : bool := Ascii.eqb c newline.

Definition has_newline (s : string) : bool := string_exists is_newline s.

(** The text fields of a policy row. *)
Definition row_text_fields (r : PolicyRow.t) : list string :=
  [ PolicyRow.version r; PolicyRow.country r; PolicyRow.use_case r;
    PolicyRow.instrument r; PolicyRow.chain r; PolicyRow.local_currency r;
    PolicyRow.time_window_local r; PolicyRow.kyc_level r;
    PolicyRow.allowed_mccs r; PolicyRow.fallback_on_fail r;
    PolicyRow.effective_from r; nullish (PolicyRow.effective_to r) "";
    PolicyRow.approver r; nullish (PolicyRow.notes r) "" ]
  ++ PolicyRow.required_disclosures r.

Definition row_single_line (r : PolicyRow.t) : bool :=
  forallb (fun s => negb (has_newline s)) (row_text_fields r).

(** The number a run of decimal digits stands for, leading zeros allowed. *)
Definition decimal_value (s : string) : option nat :=
  option_map Nat.of_uint (NilEmpty.uint_of_string s).

(** The disclosure codes of the two rows the snapshot merges. *)
Definition merged_disclosures (matrix : list PolicyRow.t) : list string :=
  nullish (option_map PolicyRow.required_disclosures (jpTochika matrix)) []
  ++ nullish (option_map PolicyRow.required_disclosures (jpUsdc matrix)) [].

(** A state that never held a lock. *)
Definition never_locked (st : AppState) : Prop :=
  quoteLocked st = false /\ quoteRate st = None /\ quoteStart st = None.

(** A newer Tochika row, switched off, filed under the sample rows. *)
Definition newerTochikaRow : PolicyRow.t :=
  PolicyRow.mk "JP-1.5" "JP" "Domestic Retail" "Tochika" "issuer-ledger" OFF
    0 0 0 "JPY" "10:00-11:00" ["JP-DISC-09"]
    "issuer" true true "5311" "Deny" "2025-09-01" None "Risk&Compliance" None.

(* ------------------------------------------------------------------ *)
(** * Properties *)

(** ** The resolver *)

Lemma find_none_of_forallb {A} (p q : A -> bool) (xs : list A) :
  forallb q xs = true ->
  (forall x, q x = true -> p x = false) ->
  find p xs = None.
Proof.
  intros Hall Hpq. induction xs as [|x xs IH]; simpl in *.
  - reflexivity.
  - apply andb_true_iff in Hall as [Hx Hxs].
    unfold find in IH. rewrite (Hpq x Hx). now apply IH.
Qed.

Lemma no_jp_row_no_lookup (matrix : list PolicyRow.t) :
  no_row_matches matrix "JP" = true ->
  jpTochika matrix = None /\ jpUsdc matrix = None.
Proof.
  intros H. unfold jpTochika, jpUsdc, no_row_matches in *.
  split; apply (find_none_of_forallb _ _ _ H); intros r Hr;
    unfold row_matches, requested_instruments in Hr; simpl in Hr;
    destruct (String.eqb (PolicyRow.country r) "JP"); simpl in *; try reflexivity;
    destruct (String.eqb (PolicyRow.instrument r) "Tochika"); simpl in *;
    try discriminate;
    destruct (String.eqb (PolicyRow.instrument r) "USDC"); simpl in *;
    try discriminate; reflexivity.
Qed.

Lemma policy_off_message (matrix : list PolicyRow.t) (st : AppState) (clock : Z) :
  PolicySnapshot.on_off (policyApplied matrix) = OFF ->
  gateMessage matrix st clock = "Blocked: Policy OFF.".
Proof.
  intros Hoff. unfold gateMessage, policyOK. rewrite Hoff. reflexivity.
Qed.

(** C1, as the code has it.  The resolver never looks at the requested
    jurisdiction: it reads the JP rows for Tochika and USDC.  When the table
    holds no such row the snapshot is the fail-closed default (OFF, both caps
    zero, the default window, no disclosure), whatever jurisdiction the
    checkout asks for, and every evaluation ends in the PolicyDisabled
    message rather than in a fault. *)
Theorem resolver_fail_closed_without_jp_rows
    (matrix : list PolicyRow.t) (st : AppState) (clock : Z) :
  no_row_matches matrix "JP" = true ->
  fail_closed (policyApplied matrix)
  /\ PolicySnapshot.time_window_local (policyApplied matrix) = "09:00-20:00"
  /\ PolicySnapshot.required_disclosures (policyApplied matrix) = []
  /\ Receipt.policy_snapshot (receiptJSON matrix st) = policyApplied matrix
  /\ decision_of_message (gateMessage matrix st clock)
     = Some (Blocked PolicyDisabled).
Proof.
  intros H. destruct (no_jp_row_no_lookup matrix H) as [Ht Hu].
  assert (Hs : policyApplied matrix
               = PolicySnapshot.mk OFF (Math_max 0 0) (Math_max 0 0)
                   "09:00-20:00" [] "partner" true "pass").
  { unfold policyApplied. rewrite Ht, Hu. reflexivity. }
  repeat split.
  - now rewrite Hs.
  - rewrite Hs. reflexivity.
  - rewrite Hs. reflexivity.
  - now rewrite Hs.
  - now rewrite Hs.
  - rewrite policy_off_message; [reflexivity | now rewrite Hs].
Qed.

Lemma resolver_fail_closed_without_jp_rows_witness :
  no_row_matches matrix_only_HK "JP" = true
  /\ fail_closed (policyApplied matrix_only_HK)
  /\ decision_of_message
       (gateMessage matrix_only_HK (initialState sampleDate) 0)
     = Some (Blocked PolicyDisabled).
Proof.
  split; [reflexivity|].
  pose proof (resolver_fail_closed_without_jp_rows matrix_only_HK
                (initialState sampleDate) 0 eq_refl) as (Hf & _ & _ & _ & Hd).
  exact (conj Hf Hd).
Defined.

(** C1 as the specification words it fails: a checkout that asks for HK
    against a table with no HK row at all gets the JP snapshot, ON with a
    cap of 15000, and is approved. *)
Lemma resolver_ignores_requested_jurisdiction :
  let st := setJurisdiction "HK" (initialState sampleDate) in
  no_row_matches matrix_without_HK (jurisdiction st) = true
  /\ PolicySnapshot.on_off (policyApplied matrix_without_HK) = ON
  /\ PolicySnapshot.max_per_txn_local (policyApplied matrix_without_HK) == 15000
  /\ ~ fail_closed (Receipt.policy_snapshot (receiptJSON matrix_without_HK st))
  /\ gateMessage matrix_without_HK st 0 = "Approved (rules satisfied).".
Proof.
  cbv zeta. repeat split; try reflexivity.
  intros [Hoff _]. vm_compute in Hoff. discriminate.
Qed.

(** ** The per-transaction cap *)

(** C6.  With a cap of zero the cap check passes for every total; with a
    positive cap it passes exactly when the total is at most the cap. *)
Theorem per_txn_cap_zero_is_no_cap (matrix : list PolicyRow.t) (st : AppState) :
  let cap := PolicySnapshot.max_per_txn_local (policyApplied matrix) in
  (cap == 0 -> perTxnOK matrix st = true)
  /\ (0 < cap -> (perTxnOK matrix st = true <-> totalJPY st <= cap)).
Proof.
  cbv zeta. unfold perTxnOK, le, strict_eq. split.
  - intros H0. apply Qeq_bool_iff in H0. rewrite H0. apply orb_true_r.
  - intros Hpos. rewrite orb_true_iff, Qle_bool_iff, Qeq_bool_iff. split.
    + intros [Hle | H0]; [exact Hle|]. rewrite H0 in Hpos.
      exfalso. exact (Qlt_irrefl 0 Hpos).
    + intros Hle. now left.
Qed.

Lemma per_txn_cap_zero_is_no_cap_witness :
  (perTxnOK matrix_only_HK (state_with_total 20000) = true)
  /\ (perTxnOK POLICY_MATRIX (state_with_total 10000) = true
      <-> totalJPY (state_with_total 10000) <= 15000)
  /\ (perTxnOK POLICY_MATRIX (state_with_total 20000) = true
      <-> totalJPY (state_with_total 20000) <= 15000).
Proof.
  split; [|split].
  - apply (proj1 (per_txn_cap_zero_is_no_cap matrix_only_HK
                    (state_with_total 20000))).
    reflexivity.
  - apply (proj2 (per_txn_cap_zero_is_no_cap POLICY_MATRIX
                    (state_with_total 10000))).
    reflexivity.
  - apply (proj2 (per_txn_cap_zero_is_no_cap POLICY_MATRIX
                    (state_with_total 20000))).
    reflexivity.
Defined.

(** The two cap scenarios of the specification: at noon, inside the JP
    window, a total of 20000 against the cap of 15000 is blocked for the
    cap, and a total of 10000 is approved. *)
Example scenario_cap_exceeded :
  decision_of_message (gateMessage POLICY_MATRIX (state_with_total 20000) 0)
  = Some (Blocked CapExceeded).
Proof. reflexivity. Qed.

Example scenario_approved :
  decision_of_message (gateMessage POLICY_MATRIX (state_with_total 10000) 0)
  = Some Approved.
Proof. reflexivity. Qed.

(** ** Precedence of the blocked reasons *)

Lemma holdValid_bool (st : AppState) (clock : Z) :
  holdValid st clock
  = negb (quoteLocked st)
    || match quoteStart st with
       | Some qs => le (elapsedSec clock qs) (holdSec st)
       | None => false
       end.
Proof. unfold holdValid. now destruct (_ || _). Qed.

Lemma gate_message_decision
    (matrix : list PolicyRow.t) (st : AppState) (clock : Z) :
  decision_of_message (gateMessage matrix st clock)
  = Some (first_failing (PolicySnapshot.on_off (policyApplied matrix))
            (windowOK matrix st) (perTxnOK matrix st)
            (holdValid st clock) (slippageValid st)).
Proof.
  unfold gateMessage, policyOK, quoteOK.
  destruct (PolicySnapshot.on_off (policyApplied matrix));
    destruct (windowOK matrix st); destruct (perTxnOK matrix st);
    destruct (holdValid st clock); destruct (slippageValid st); reflexivity.
Qed.

(** C2.  The message of every evaluation stands for exactly one decision,
    the one the first failing check names in the order policy, window, cap,
    hold, slippage; a quote reason is given only when the three policy checks
    pass, and the decision is Approved exactly when the five checks pass. *)
Theorem gate_message_follows_precedence
    (matrix : list PolicyRow.t) (st : AppState) (clock : Z) :
  let d := first_failing (PolicySnapshot.on_off (policyApplied matrix))
             (windowOK matrix st) (perTxnOK matrix st)
             (holdValid st clock) (slippageValid st) in
  decision_of_message (gateMessage matrix st clock) = Some d
  /\ (d = Blocked QuoteExpired \/ d = Blocked SlippageBreached ->
      PolicySnapshot.on_off (policyApplied matrix) = ON
      /\ windowOK matrix st = true /\ perTxnOK matrix st = true)
  /\ (d = Approved <->
      PolicySnapshot.on_off (policyApplied matrix) = ON
      /\ windowOK matrix st = true /\ perTxnOK matrix st = true
      /\ holdValid st clock = true /\ slippageValid st = true).
Proof.
  cbv zeta. split; [apply gate_message_decision|].
  destruct (PolicySnapshot.on_off (policyApplied matrix));
    destruct (windowOK matrix st); destruct (perTxnOK matrix st);
    destruct (holdValid st clock); destruct (slippageValid st); simpl;
    (split; [intros [H|H]; try discriminate H; auto
            | split; [intros H; try discriminate H; auto
                     | intros (H1&H2&H3&H4&H5); try discriminate; auto]]).
Qed.

Lemma gate_message_follows_precedence_witness :
  decision_of_message
    (gateMessage POLICY_MATRIX
       (lockQuote sampleDate (initialState sampleDate))
       (getTime sampleDate + 91000))
  = Some (Blocked QuoteExpired)
  /\ windowOK POLICY_MATRIX (lockQuote sampleDate (initialState sampleDate))
     = true.
Proof.
  pose proof (gate_message_follows_precedence POLICY_MATRIX
                (lockQuote sampleDate (initialState sampleDate))
                (getTime sampleDate + 91000)) as (Hd & Hq & _).
  split; [exact Hd | apply Hq; left; reflexivity].
Defined.

(** ** Quote validity *)

Lemma abs_quotient_positive (a q : Q) :
  0 < q -> Qabs (a / q) == Qabs a / q.
Proof.
  intros Hq. unfold Qdiv.
  rewrite Qabs_Qmult, Qabs_Qinv, (Qabs_pos q) by now apply Qlt_le_weak.
  reflexivity.
Qed.

Lemma positive_is_not_zero (q : Q) : 0 < q -> Qeq_bool q 0 = false.
Proof.
  intros Hq. destruct (Qeq_bool q 0) eqn:E; [|reflexivity].
  apply Qeq_bool_iff in E. rewrite E in Hq.
  exfalso. exact (Qlt_irrefl 0 Hq).
Qed.

(** C4.  The quote is valid when the hold and the slippage checks both
    pass.  For a quote locked at a positive rate [q] at time [d], the hold
    check passes exactly when the seconds elapsed since [d] are at most the
    hold window, and the slippage check exactly when
    |rate - q| / q * 10000 is at most the bound.  An unlocked quote is
    valid, the lock button produces such a locked quote, and the only state
    change a render can trigger, the auto-fallback effect, leaves the lock
    fields as they are. *)
Theorem quote_validity (st : AppState) (clock : Z) :
  quoteOK st clock = holdValid st clock && slippageValid st
  /\ (quoteLocked st = false -> quoteOK st clock = true)
  /\ (forall q d,
        quoteLocked st = true -> quoteRate st = Some q ->
        quoteStart st = Some d -> 0 < q ->
        (holdValid st clock = true
         <-> inject_Z (clock - getTime d) / 1000 <= holdSec st)
        /\ (slippageValid st = true
            <-> Qabs (rateUSDCJPY st - q) / q * 10000 <= slippageBps st))
  /\ (forall today,
        lockState (lockQuote today st)
        = (true, Some (rateUSDCJPY st), Some today))
  /\ lockState (autoFallbackEffect st clock) = lockState st.
Proof.
  split; [reflexivity|]. split; [|split; [|split]].
  - intros Hu. unfold quoteOK, slippageValid. rewrite holdValid_bool, Hu.
    reflexivity.
  - intros q d Hl Hq Hd Hpos. split.
    + rewrite holdValid_bool, Hl, Hd. cbn [negb orb]. unfold le, elapsedSec.
      apply Qle_bool_iff.
    + unfold slippageValid, slippageWithin, strict_eq, le, Math_abs.
      rewrite Hl, Hq, (positive_is_not_zero q Hpos). cbn [negb orb].
      rewrite Qle_bool_iff, (abs_quotient_positive _ q Hpos). reflexivity.
  - reflexivity.
  - unfold autoFallbackEffect.
    destruct (autoFallback st && quoteLocked st && negb (quoteOK st clock)
              && gt (usdcAmt st) 0); reflexivity.
Qed.

(** The quote scenarios of the specification: locked at 150, the hold of 90
    seconds is over after 91; a move to 151 is 66.7 basis points, beyond the
    bound of 50. *)
Lemma quote_validity_witness :
  (holdValid (locked_at 150 150) (getTime sampleDate + 90000) = true)
  /\ (holdValid (locked_at 150 150) (getTime sampleDate + 91000) = true
      <-> inject_Z (getTime sampleDate + 91000 - getTime sampleDate) / 1000
          <= 90)
  /\ (slippageValid (locked_at 150 151) = true
      <-> Qabs (151 - 150) / 150 * 10000 <= 50).
Proof.
  pose proof (quote_validity (locked_at 150 150) (getTime sampleDate + 90000))
    as (_ & _ & H90 & _).
  pose proof (quote_validity (locked_at 150 150) (getTime sampleDate + 91000))
    as (_ & _ & H91 & _).
  pose proof (quote_validity (locked_at 150 151) 0) as (_ & _ & Hs & _).
  split; [|split].
  - apply (proj1 (H90 150 sampleDate eq_refl eq_refl eq_refl eq_refl)).
    discriminate.
  - exact (proj1 (H91 150 sampleDate eq_refl eq_refl eq_refl eq_refl)).
  - exact (proj2 (Hs 150 sampleDate eq_refl eq_refl eq_refl eq_refl)).
Defined.

Example scenario_quote_expired :
  decision_of_message
    (gateMessage POLICY_MATRIX (locked_at 150 150) (getTime sampleDate + 91000))
  = Some (Blocked QuoteExpired).
Proof. reflexivity. Qed.

Example scenario_slippage_breached :
  decision_of_message
    (gateMessage POLICY_MATRIX (locked_at 150 151) (getTime sampleDate + 10000))
  = Some (Blocked SlippageBreached).
Proof. reflexivity. Qed.

(** ** The fallback transform *)

Lemma Math_round_bounds (x : Q) :
  Math_round x <= x + (1 # 2) /\ x - (1 # 2) < Math_round x.
Proof.
  unfold Math_round. split.
  - apply Qfloor_le.
  - pose proof (Qlt_floor (x + (1 # 2))) as H.
    rewrite inject_Z_plus in H. change (inject_Z 1) with 1 in H. lra.
Qed.

Lemma Math_round_whole (z : Z) : Math_round (inject_Z z) = inject_Z z.
Proof.
  unfold Math_round. f_equal.
  pose proof (Qfloor_le (inject_Z z + (1 # 2))) as Hle.
  pose proof (Qlt_floor (inject_Z z + (1 # 2))) as Hlt.
  set (f := Qfloor (inject_Z z + (1 # 2))) in *.
  rewrite inject_Z_plus in Hlt. change (inject_Z 1) with 1 in Hlt.
  assert (H1 : inject_Z f < inject_Z (z + 1)).
  { rewrite inject_Z_plus. change (inject_Z 1) with 1. lra. }
  assert (H2 : inject_Z z < inject_Z (f + 1)).
  { rewrite inject_Z_plus. change (inject_Z 1) with 1. lra. }
  rewrite <- Zlt_Qlt in H1, H2. lia.
Qed.

Lemma Math_round_comp (x y : Q) : x == y -> Math_round x = Math_round y.
Proof.
  intros H. unfold Math_round. f_equal. apply Qfloor_comp. now rewrite H.
Qed.

Lemma fallback_unfold (st : AppState) (clock : Z) :
  autoFallbackEffect st clock
  = if fallbackFires st clock
    then setUsdcAmt 0
           (setCardJPY
              (fun prev =>
                 Math_round (prev + Math_round (usdcAmt st * rateUSDCJPY st)))
              st)
    else st.
Proof. reflexivity. Qed.

Lemma gt_zero_iff (u : Q) : gt u 0 = true <-> 0 < u.
Proof.
  unfold gt. rewrite negb_true_iff. split.
  - intros H. apply Qnot_le_lt. intros Hle.
    apply Qle_bool_iff in Hle. congruence.
  - intros H. destruct (Qle_bool u 0) eqn:E; [|reflexivity].
    apply Qle_bool_iff in E. exfalso. exact (Qlt_not_le _ _ H E).
Qed.

Lemma fallbackFires_iff (st : AppState) (clock : Z) :
  fallbackFires st clock = true
  <-> quoteLocked st = true /\ quoteOK st clock = false
      /\ autoFallback st = true /\ 0 < usdcAmt st.
Proof.
  unfold fallbackFires.
  rewrite !andb_true_iff, negb_true_iff, gt_zero_iff. tauto.
Qed.

Lemma fallback_noop_without_usdc (st : AppState) (clock : Z) :
  usdcAmt st == 0 -> autoFallbackEffect st clock = st.
Proof.
  intros H0. rewrite fallback_unfold.
  destruct (fallbackFires st clock) eqn:E; [|reflexivity].
  apply fallbackFires_iff in E as (_ & _ & _ & Hu).
  rewrite H0 in Hu. exfalso. exact (Qlt_irrefl 0 Hu).
Qed.

Lemma fallback_zeroes_usdc (st : AppState) (clock : Z) :
  fallbackFires st clock = true -> usdcAmt (autoFallbackEffect st clock) = 0.
Proof. intros E. rewrite fallback_unfold, E. reflexivity. Qed.

Lemma fallback_idempotent (st : AppState) (clock : Z) :
  autoFallbackEffect (autoFallbackEffect st clock) clock
  = autoFallbackEffect st clock.
Proof.
  destruct (fallbackFires st clock) eqn:E.
  - apply fallback_noop_without_usdc.
    now rewrite (fallback_zeroes_usdc st clock E).
  - rewrite (fallback_unfold st clock), E, fallback_unfold, E. reflexivity.
Qed.

(** C3, as the code has it.  The effect writes to the state exactly when
    the quote is locked, the quote is not valid, auto-fallback is on and the
    USDC amount is positive.  It then sets the card amount to
    round(card + round(usdc * rate)) and the USDC amount to zero and changes
    nothing else; for a card amount that is a whole number the card grows by
    exactly round(usdc * rate).  Otherwise the state is untouched.  The
    effect does nothing on a state whose USDC amount is zero, so it never
    fires again on its own output, at any later clock.  No bound on the move
    of the total is stated: the total is recomputed in doubles from the new
    amounts, and [fallback_moves_total_beyond_one] replays a move of 1.01. *)
Theorem fallback_transform (st : AppState) (clock : Z) :
  let st' := autoFallbackEffect st clock in
  let addJPY := Math_round (usdcAmt st * rateUSDCJPY st) in
  (fallbackFires st clock = true
   <-> quoteLocked st = true /\ quoteOK st clock = false
       /\ autoFallback st = true /\ 0 < usdcAmt st)
  /\ (fallbackFires st clock = true ->
      st' = setUsdcAmt 0
              (setCardJPY (fun _ => Math_round (cardJPY st + addJPY)) st)
      /\ usdcAmt st' = 0
      /\ (forall z, cardJPY st == inject_Z z ->
                    cardJPY st' == cardJPY st + addJPY)
      /\ (forall clock', autoFallbackEffect st' clock' = st'))
  /\ (fallbackFires st clock = false -> st' = st)
  /\ (usdcAmt st == 0 -> st' = st)
  /\ autoFallbackEffect st' clock = st'.
Proof.
  cbv zeta. split; [apply fallbackFires_iff|].
  split; [|split; [|split]].
  - intros E. split; [|split; [|split]].
    + rewrite fallback_unfold, E. reflexivity.
    + now apply fallback_zeroes_usdc.
    + intros z Hz. rewrite fallback_unfold, E. cbn [cardJPY setUsdcAmt setCardJPY].
      unfold Math_round at 1.
      assert (Hsum : cardJPY st + Math_round (usdcAmt st * rateUSDCJPY st)
                     == inject_Z (z + Qfloor (usdcAmt st * rateUSDCJPY st + (1 # 2)))).
      { rewrite inject_Z_plus, Hz. reflexivity. }
      rewrite Hsum at 2.
      pose proof (Math_round_comp _ _ Hsum) as Hr.
      rewrite Math_round_whole in Hr. unfold Math_round in Hr at 1.
      rewrite Hr. reflexivity.
    + intros clock'. apply fallback_noop_without_usdc.
      now rewrite (fallback_zeroes_usdc st clock E).
  - intros E. rewrite fallback_unfold, E. reflexivity.
  - apply fallback_noop_without_usdc.
  - apply fallback_idempotent.
Qed.

(** The fallback scenario of the specification: the 20 USDC at 150.75 move
    to the card as 3015 yen, and the effect does not fire again a second
    later. *)
Lemma fallback_transform_witness :
  usdcAmt (autoFallbackEffect (expired_with_card 500) expiry_clock) = 0
  /\ cardJPY (autoFallbackEffect (expired_with_card 500) expiry_clock)
     == 500 + Math_round (20 * (15075 # 100))
  /\ autoFallbackEffect (autoFallbackEffect (expired_with_card 500)
                           expiry_clock) (expiry_clock + 1000)
     = autoFallbackEffect (expired_with_card 500) expiry_clock.
Proof.
  pose proof (fallback_transform (expired_with_card 500) expiry_clock)
    as (_ & Hfire & _).
  destruct (Hfire eq_refl) as (_ & Hu & Hc & Hno).
  split; [exact Hu | split; [exact (Hc 500%Z (Qeq_refl _)) | apply Hno]].
Defined.

(** C3 as the specification words it fails: the card is set to the rounded
    sum, so a card amount of 500.5 grows by 3015.5, not by the 3015 that
    round(20 * 150.75) is. *)
Lemma fallback_rounds_card_sum :
  let st := expired_with_card (1001 # 2) in
  let st' := autoFallbackEffect st expiry_clock in
  fallbackFires st expiry_clock = true
  /\ Math_round (usdcAmt st * rateUSDCJPY st) == 3015
  /\ cardJPY st' == 3516
  /\ ~ cardJPY st' == cardJPY st + Math_round (usdcAmt st * rateUSDCJPY st).
Proof.
  cbv zeta. repeat split; try reflexivity. intros H. vm_compute in H.
  discriminate.
Qed.

(** The same effect replayed in doubles, where the total is not kept within
    one unit: with 0.005 of Tochika, one USDC at a rate of 0.5 and a card
    amount of 0.5 the total is 1 before the effect and 2.01 after it. *)
Example fallback_moves_total_beyond_one :
  let card' := Double.fallbackCard Double.oneUsdc Double.halfCard
                 Double.halfRate in
  let before := Double.totalJPY Double.tinyTochika Double.oneUsdc
                  Double.halfCard Double.halfRate in
  let after := Double.totalJPY Double.tinyTochika Double.zero card'
                 Double.halfRate in
  before = Double.one
  /\ after = Double.two_and_a_hundredth
  /\ PrimFloat.ltb Double.one (PrimFloat.sub after before) = true.
Proof. vm_compute. repeat split. Qed.

(** ** The time window *)

Lemma comparison_eqb_eq (a b : comparison) : comparison_eqb a b = true -> a = b.
Proof. destruct a, b; simpl; congruence. Qed.

Lemma hhmm_clockText (d : Date) : hhmm d = clockText (getHours d) (getMinutes d).
Proof. reflexivity. Qed.

(** Below one hundred, the two-digit texts are ordered like the numbers,
    hold two characters and hold no dash: checked on the hundred values. *)
Lemma two_digits_table :
  forallb
    (fun a =>
       (String.length (two_digits a) =? 2)%nat
       && negb (has_dash (two_digits a))
       && forallb
            (fun b =>
               comparison_eqb (String.compare (two_digits a) (two_digits b))
                              (Nat.compare a b))
            (List.seq 0 100))
    (List.seq 0 100) = true.
Proof. vm_compute. reflexivity. Qed.

Lemma two_digits_facts (a : nat) :
  (a < 100)%nat ->
  String.length (two_digits a) = 2%nat
  /\ has_dash (two_digits a) = false
  /\ forall b, (b < 100)%nat ->
               String.compare (two_digits a) (two_digits b) = Nat.compare a b.
Proof.
  intros Ha.
  pose proof (proj1 (forallb_forall _ _) two_digits_table a) as H.
  assert (Hin : In a (List.seq 0 100)) by (apply in_seq; lia).
  apply H in Hin. apply andb_true_iff in Hin as [Hin Hcmp].
  apply andb_true_iff in Hin as [Hlen Hdash].
  split; [now apply Nat.eqb_eq|]. split; [now apply negb_true_iff|].
  intros b Hb. apply comparison_eqb_eq.
  apply (proj1 (forallb_forall _ _) Hcmp). apply in_seq. lia.
Qed.

Lemma compare_append (s1 s2 t1 t2 : string) :
  String.length s1 = String.length s2 ->
  String.compare (s1 ++ t1) (s2 ++ t2)
  = match String.compare s1 s2 with
    | Eq => String.compare t1 t2
    | c => c
    end.
Proof.
  revert s2. induction s1 as [|c1 s1 IH]; intros [|c2 s2] Hlen;
    simpl in *; try discriminate.
  - reflexivity.
  - destruct (Ascii.compare c1 c2); try reflexivity.
    apply IH. congruence.
Qed.

Lemma clockText_compare (h m h' m' : nat) :
  (h < 100)%nat -> (h' < 100)%nat -> (m < 60)%nat -> (m' < 60)%nat ->
  String.compare (clockText h m) (clockText h' m')
  = Nat.compare (minuteOfDay h m) (minuteOfDay h' m').
Proof.
  intros Hh Hh' Hm Hm'. unfold clockText.
  destruct (two_digits_facts h Hh) as (Hlen & _ & Hcmp).
  destruct (two_digits_facts h' Hh') as (Hlen' & _ & _).
  destruct (two_digits_facts m) as (_ & _ & Hcmpm); [lia|].
  rewrite compare_append by congruence.
  rewrite (Hcmp h' Hh'). cbn [append]. simpl String.compare at 1.
  rewrite (Hcmpm m') by lia. unfold minuteOfDay.
  destruct (Nat.compare_spec h h') as [E|E|E].
  - subst h'. destruct (Nat.compare_spec m m') as [F|F|F]; symmetry.
    + apply Nat.compare_eq_iff. lia.
    + apply Nat.compare_lt_iff. lia.
    + apply Nat.compare_gt_iff. lia.
  - symmetry. apply Nat.compare_lt_iff. lia.
  - symmetry. apply Nat.compare_gt_iff. lia.
Qed.

Lemma clockText_leb (h m h' m' : nat) :
  (h < 100)%nat -> (h' < 100)%nat -> (m < 60)%nat -> (m' < 60)%nat ->
  String.leb (clockText h m) (clockText h' m')
  = (minuteOfDay h m <=? minuteOfDay h' m')%nat.
Proof.
  intros Hh Hh' Hm Hm'. unfold String.leb.
  rewrite clockText_compare by assumption.
  destruct (Nat.compare_spec (minuteOfDay h m) (minuteOfDay h' m'));
    symmetry; (apply Nat.leb_le + apply Nat.leb_gt); lia.
Qed.

Lemma has_dash_append (s t : string) :
  has_dash (s ++ t) = has_dash s || has_dash t.
Proof.
  unfold has_dash. induction s as [|c s IH]; simpl.
  - reflexivity.
  - rewrite IH. apply orb_assoc.
Qed.

Lemma clockText_no_dash (h m : nat) :
  (h < 100)%nat -> (m < 100)%nat -> has_dash (clockText h m) = false.
Proof.
  intros Hh Hm. unfold clockText.
  destruct (two_digits_facts h Hh) as (_ & Hd & _).
  destruct (two_digits_facts m Hm) as (_ & Hd' & _).
  rewrite !has_dash_append, Hd, Hd'. reflexivity.
Qed.

Lemma split_no_dash (s : string) : has_dash s = false -> split "-" s = [s].
Proof.
  unfold has_dash. induction s as [|c s IH]; simpl; intros H.
  - reflexivity.
  - apply orb_false_iff in H as [Hc Hs]. rewrite Hc, (IH Hs). reflexivity.
Qed.

Lemma split_window (start end_ : string) :
  has_dash start = false -> has_dash end_ = false ->
  split "-" (start ++ "-" ++ end_) = [start; end_].
Proof.
  unfold has_dash. intros Hs He.
  induction start as [|c s IH]; simpl in *.
  - now rewrite (split_no_dash end_ He).
  - apply orb_false_iff in Hs as [Hc Hs]. rewrite Hc, (IH Hs). reflexivity.
Qed.

Lemma withinWindow_bounds (d : Date) (start end_ : string) :
  has_dash start = false -> has_dash end_ = false ->
  withinWindow d (start ++ "-" ++ end_)
  = String.leb start (hhmm d) && String.leb (hhmm d) end_.
Proof.
  intros Hs He. unfold withinWindow. now rewrite split_window.
Qed.

Lemma withinWindow_minutes (d : Date) (h1 m1 h2 m2 : nat) :
  valid_clock d ->
  (h1 < 100)%nat -> (m1 < 60)%nat -> (h2 < 100)%nat -> (m2 < 60)%nat ->
  withinWindow d (clockText h1 m1 ++ "-" ++ clockText h2 m2)
  = (minuteOfDay h1 m1 <=? timeOfDay d)%nat
    && (timeOfDay d <=? minuteOfDay h2 m2)%nat.
Proof.
  intros [Hh Hm] H1 M1 H2 M2.
  rewrite withinWindow_bounds by (apply clockText_no_dash; lia).
  rewrite hhmm_clockText, !clockText_leb by lia. reflexivity.
Qed.

Lemma jp_snapshot :
  policyApplied POLICY_MATRIX
  = PolicySnapshot.mk ON 15000 30000 "09:00-20:00"
      ["JP-DISC-01"; "JP-DISC-03"; "JP-DISC-04"] "partner" true "pass".
Proof. reflexivity. Qed.

Lemma jp_windowOK (st : AppState) :
  valid_clock (now st) ->
  windowOK POLICY_MATRIX st
  = (540 <=? timeOfDay (now st))%nat && (timeOfDay (now st) <=? 1200)%nat.
Proof.
  intros Hv. unfold windowOK. rewrite jp_snapshot.
  exact (withinWindow_minutes (now st) 9 0 20 0 Hv
           ltac:(lia) ltac:(lia) ltac:(lia) ltac:(lia)).
Qed.

Lemma outside_window_message
    (matrix : list PolicyRow.t) (st : AppState) (clock : Z) :
  PolicySnapshot.on_off (policyApplied matrix) = ON ->
  windowOK matrix st = false ->
  decision_of_message (gateMessage matrix st clock)
  = Some (Blocked OutsideWindow).
Proof.
  intros Hon Hw. rewrite gate_message_decision, Hon, Hw. reflexivity.
Qed.

(** C5.  The window check splits the window at the dash and compares the
    HH:MM text of the local time with the two bounds as strings, both
    bounds included; it reads nothing of [now] but the hour and the minute.
    For bounds written as two-digit hours and minutes the comparison is the
    comparison of the minutes of the day.  The window 00:00-24:00 passes at
    every time of day.  Against the policy matrix of the component, whose
    window is 09:00-20:00, every time from 09:00 to 20:00 passes and every
    other time ends in Blocked(OutsideWindow), whatever the amounts and the
    quote; and so does, for any table that resolves to ON, every time the
    window check rejects. *)
Theorem window_check_inclusive_time_of_day :
  (forall d start end_,
      has_dash start = false -> has_dash end_ = false ->
      withinWindow d (start ++ "-" ++ end_)
      = String.leb start (hhmm d) && String.leb (hhmm d) end_)
  /\ (forall d d' w,
        getHours d = getHours d' -> getMinutes d = getMinutes d' ->
        withinWindow d w = withinWindow d' w)
  /\ (forall d h1 m1 h2 m2,
        valid_clock d ->
        (h1 < 100)%nat -> (m1 < 60)%nat -> (h2 < 100)%nat -> (m2 < 60)%nat ->
        withinWindow d (clockText h1 m1 ++ "-" ++ clockText h2 m2) = true
        <-> (minuteOfDay h1 m1 <= timeOfDay d <= minuteOfDay h2 m2)%nat)
  /\ (forall d, valid_clock d -> withinWindow d "00:00-24:00" = true)
  /\ (forall st clock,
        valid_clock (now st) ->
        ((540 <= timeOfDay (now st) <= 1200)%nat ->
         windowOK POLICY_MATRIX st = true)
        /\ ((timeOfDay (now st) < 540 \/ 1200 < timeOfDay (now st))%nat ->
            decision_of_message (gateMessage POLICY_MATRIX st clock)
            = Some (Blocked OutsideWindow)))
  /\ (forall matrix st clock,
        PolicySnapshot.on_off (policyApplied matrix) = ON ->
        windowOK matrix st = false ->
        decision_of_message (gateMessage matrix st clock)
        = Some (Blocked OutsideWindow)).
Proof.
  split; [exact withinWindow_bounds|].
  split.
  { intros d d' w Hh Hm. unfold withinWindow, hhmm. now rewrite Hh, Hm. }
  split.
  { intros d h1 m1 h2 m2 Hv H1 M1 H2 M2.
    rewrite withinWindow_minutes by assumption.
    rewrite andb_true_iff, !Nat.leb_le. reflexivity. }
  split.
  { intros d Hv.
    change "00:00-24:00" with (clockText 0 0 ++ "-" ++ clockText 24 0).
    rewrite withinWindow_minutes by (assumption || lia).
    destruct Hv as [Hh Hm]. unfold timeOfDay, minuteOfDay.
    apply andb_true_iff. split; apply Nat.leb_le; lia. }
  split.
  { intros st clock Hv. split.
    - intros Hin. rewrite jp_windowOK by assumption.
      apply andb_true_iff. split; apply Nat.leb_le; lia.
    - intros Hout. apply outside_window_message; [now rewrite jp_snapshot|].
      rewrite jp_windowOK by assumption.
      apply andb_false_iff. rewrite !Nat.leb_gt. lia. }
  exact outside_window_message.
Qed.

Lemma window_check_inclusive_time_of_day_witness :
  windowOK POLICY_MATRIX (state_at 9 0) = true
  /\ windowOK POLICY_MATRIX (state_at 20 0) = true
  /\ decision_of_message (gateMessage POLICY_MATRIX (state_at 8 59) 0)
     = Some (Blocked OutsideWindow)
  /\ decision_of_message (gateMessage POLICY_MATRIX (state_at 20 1) 0)
     = Some (Blocked OutsideWindow)
  /\ withinWindow (now (state_at 23 59)) "00:00-24:00" = true.
Proof.
  pose proof window_check_inclusive_time_of_day as (_ & _ & _ & Hfull & Hjp & _).
  assert (Hv : forall h m, (h < 24)%nat -> (m < 60)%nat ->
                           valid_clock (now (state_at h m)))
    by (intros h m Hh Hm; split; assumption).
  split; [|split; [|split; [|split]]].
  - apply (Hjp (state_at 9 0) 0%Z); [apply Hv; lia|].
    unfold timeOfDay, minuteOfDay. simpl. lia.
  - apply (Hjp (state_at 20 0) 0%Z); [apply Hv; lia|].
    unfold timeOfDay, minuteOfDay. simpl. lia.
  - apply (Hjp (state_at 8 59) 0%Z); [apply Hv; lia|].
    unfold timeOfDay, minuteOfDay. simpl. lia.
  - apply (Hjp (state_at 20 1) 0%Z); [apply Hv; lia|].
    unfold timeOfDay, minuteOfDay. simpl. lia.
  - apply Hfull. apply Hv; lia.
Defined.

(** ** Text of numbers and identifiers *)

Lemma string_forall_append (p : ascii -> bool) (s t : string) :
  string_forall p (s ++ t) = string_forall p s && string_forall p t.
Proof.
  induction s as [|c s IH]; simpl; [reflexivity|].
  rewrite IH. apply andb_assoc.
Qed.

Lemma string_exists_append (p : ascii -> bool) (s t : string) :
  string_exists p (s ++ t) = string_exists p s || string_exists p t.
Proof.
  induction s as [|c s IH]; simpl; [reflexivity|].
  rewrite IH. apply orb_assoc.
Qed.

Lemma string_forall_weaken (p q : ascii -> bool) (s : string) :
  (forall c, p c = true -> q c = true) ->
  string_forall p s = true -> string_forall q s = true.
Proof.
  intros Hpq. induction s as [|c s IH]; simpl; [reflexivity|].
  rewrite !andb_true_iff. intros [Hc Hs]. split; auto.
Qed.

Lemma number_char_not_special (c : ascii) :
  number_char c = true -> csv_special c = false.
Proof.
  destruct c as [[] [] [] [] [] [] [] []]; vm_compute; congruence.
Qed.

Lemma number_text_is_plain (s : string) :
  string_forall number_char s = true -> csvEscape s = s.
Proof.
  intros H. unfold csvEscape.
  replace (string_exists csv_special s) with false; [reflexivity|].
  symmetry. induction s as [|c s IH]; simpl in *; [reflexivity|].
  apply andb_true_iff in H as [Hc Hs].
  now rewrite (number_char_not_special c Hc), (IH Hs).
Qed.

Lemma uint_text_digits (d : Decimal.uint) :
  all_digits (NilEmpty.string_of_uint d) = true.
Proof. induction d; simpl; auto. Qed.

Lemma String_of_nat_digits (n : nat) : all_digits (String_of_nat n) = true.
Proof. apply uint_text_digits. Qed.

Lemma is_digit_number_char (c : ascii) : is_digit c = true -> number_char c = true.
Proof. unfold number_char. now intros ->. Qed.

Lemma String_of_Z_number_text (z : Z) :
  string_forall number_char (String_of_Z z) = true.
Proof.
  assert (Hu : forall d, string_forall number_char (NilZero.string_of_uint d) = true).
  { intros d. unfold NilZero.string_of_uint.
    destruct d; try reflexivity;
      apply (string_forall_weaken is_digit _ _ is_digit_number_char);
      apply (uint_text_digits (_ _)). }
  unfold String_of_Z, NilZero.string_of_int.
  destruct (Z.to_int z); [apply Hu|]. simpl. apply Hu.
Qed.

Lemma repeat_zero_digits (n : nat) : all_digits (repeat_char "0" n) = true.
Proof. induction n; simpl; auto. Qed.

Lemma padStart_digits (k n : nat) :
  all_digits (padStart k "0" (String_of_nat n)) = true.
Proof.
  unfold padStart, all_digits. rewrite string_forall_append.
  apply andb_true_iff. split;
    [apply repeat_zero_digits | apply String_of_nat_digits].
Qed.

Lemma number_toString_text (x : number) :
  string_forall number_char (number_toString x) = true.
Proof.
  unfold number_toString.
  rewrite !string_forall_append, !andb_true_iff. split; [|split].
  - now destruct (_ <? _)%Z.
  - apply String_of_Z_number_text.
  - destruct (_ =? 0)%nat; [reflexivity|].
    cbn [append string_forall]. apply andb_true_iff. split; [reflexivity|].
    apply (string_forall_weaken is_digit _ _ is_digit_number_char).
    destruct (_ =? 0)%nat;
      [apply String_of_nat_digits | apply padStart_digits].
Qed.

Lemma number_toString_comp (x y : number) :
  x == y -> number_toString x = number_toString y.
Proof.
  intros H. unfold number_toString.
  assert (Hf : Qfloor (x * 100) = Qfloor (y * 100))
    by (apply Qfloor_comp; now rewrite H).
  now rewrite Hf.
Qed.

(** ** The reconciliation identifier *)

Lemma append_assoc (s t u : string) : (s ++ t) ++ u = s ++ (t ++ u).
Proof. induction s as [|c s IH]; simpl; [reflexivity | now rewrite IH]. Qed.

Lemma length_append (s t : string) :
  String.length (s ++ t) = (String.length s + String.length t)%nat.
Proof. induction s as [|c s IH]; simpl; [reflexivity | now rewrite IH]. Qed.

Lemma number_text_no_special (s : string) :
  string_forall number_char s = true -> string_exists csv_special s = false.
Proof.
  induction s as [|c s IH]; simpl; [reflexivity|].
  rewrite andb_true_iff. intros [Hc Hs].
  now rewrite (number_char_not_special c Hc), (IH Hs).
Qed.

Lemma digits_no_special (s : string) :
  all_digits s = true -> string_exists csv_special s = false.
Proof.
  intros H. apply number_text_no_special.
  exact (string_forall_weaken is_digit _ _ is_digit_number_char H).
Qed.

(** A four-digit year prints as four digits: checked on the nine thousand
    values. *)
Lemma year_table :
  forallb
    (fun y => (String.length (String_of_Z (Z.of_nat y)) =? 4)%nat
              && all_digits (String_of_Z (Z.of_nat y)))
    (List.seq (10 * 100) (90 * 100)) = true.
Proof. vm_compute. reflexivity. Qed.

Lemma year_text (y : Z) :
  (1000 <= y <= 9999)%Z ->
  String.length (String_of_Z y) = 4%nat /\ all_digits (String_of_Z y) = true.
Proof.
  intros Hy.
  pose proof (proj1 (forallb_forall _ _) year_table (Z.to_nat y)) as H.
  cbv beta in H. rewrite Z2Nat.id in H by lia.
  assert (Hin : In (Z.to_nat y) (List.seq (10 * 100) (90 * 100)))
    by (apply in_seq; lia).
  apply H in Hin. apply andb_true_iff in Hin as [Hlen Hd].
  split; [now apply Nat.eqb_eq | exact Hd].
Qed.

Lemma genRID_shape (country : string) (d : Date) (n : nat) :
  genRID country d n
  = "RID-" ++ country ++ "-" ++ dateText d ++ "-"
    ++ padStart 6 "0" (String_of_nat n).
Proof. unfold genRID, dateText, two_digits. now rewrite !append_assoc. Qed.

Lemma dateText_digits (d : Date) :
  valid_calendar d ->
  String.length (dateText d) = 8%nat /\ all_digits (dateText d) = true.
Proof.
  intros (Hy & Hm & Hd). unfold dateText.
  destruct (year_text _ Hy) as [Hlen Hdig].
  destruct (two_digits_facts (getMonth d + 1)) as (Hlm & _); [lia|].
  destruct (two_digits_facts (getDate d)) as (Hld & _); [lia|].
  split.
  - rewrite !length_append, Hlen, Hlm, Hld. reflexivity.
  - unfold all_digits in *. rewrite !string_forall_append, Hdig.
    unfold two_digits. now rewrite !padStart_digits.
Qed.

Lemma rid_no_special (country : string) (d : Date) (n : nat) :
  string_exists csv_special country = false ->
  string_exists csv_special (genRID country d n) = false.
Proof.
  intros Hc. unfold genRID.
  rewrite !string_exists_append, Hc.
  rewrite (number_text_no_special _ (String_of_Z_number_text _)).
  rewrite !(digits_no_special _ (padStart_digits _ _)).
  reflexivity.
Qed.

Lemma reconField_RID (matrix : list PolicyRow.t) (st : AppState) :
  reconField matrix st "RID" = Some (csvEscape (rid st)).
Proof. reflexivity. Qed.

(** C7, as the code has it.  For a date with a four-digit year the
    identifier is RID-<jurisdiction>-<YYYYMMDD>-000045: the sequence text is
    the constant 000045, six digits, so the identifier is a function of the
    jurisdiction and the calendar date alone and two checkouts that share
    them share the identifier.  The receipt carries it unchanged, and so
    does the reconciliation row for a jurisdiction code free of the
    characters the CSV writer quotes (JP and HK are). *)
Theorem rid_is_jurisdiction_date_and_constant :
  (forall st,
      valid_calendar (now st) ->
      rid_format (jurisdiction st) "000045" (rid st))
  /\ String.length "000045" = 6%nat /\ all_digits "000045" = true
  /\ (forall st st',
        jurisdiction st = jurisdiction st' ->
        getFullYear (now st) = getFullYear (now st') ->
        getMonth (now st) = getMonth (now st') ->
        getDate (now st) = getDate (now st') ->
        rid st = rid st')
  /\ (forall matrix st,
        Receipt.reconciliation_id (receiptJSON matrix st) = rid st)
  /\ (forall matrix st,
        string_exists csv_special (jurisdiction st) = false ->
        reconField matrix st "RID"
        = Some (Receipt.reconciliation_id (receiptJSON matrix st)))
  /\ string_exists csv_special "JP" = false
  /\ string_exists csv_special "HK" = false.
Proof.
  split.
  { intros st Hv. exists (dateText (now st)).
    destruct (dateText_digits _ Hv) as [Hlen Hdig].
    split; [|split]; try assumption.
    unfold rid. rewrite genRID_shape. reflexivity. }
  split; [reflexivity|]. split; [reflexivity|].
  split.
  { intros st st' Hj Hy Hm Hd. unfold rid, genRID.
    now rewrite Hj, Hy, Hm, Hd. }
  split; [reflexivity|].
  split; [|split; reflexivity].
  intros matrix st Hj. rewrite reconField_RID. unfold csvEscape, rid.
  now rewrite (rid_no_special _ _ _ Hj).
Qed.

Lemma rid_is_jurisdiction_date_and_constant_witness :
  rid_format "JP" "000045" (rid (initialState sampleDate))
  /\ rid (initialState sampleDate) = "RID-JP-20250827-000045"
  /\ reconField POLICY_MATRIX (initialState sampleDate) "RID"
     = Some "RID-JP-20250827-000045".
Proof.
  pose proof rid_is_jurisdiction_date_and_constant
    as (Hfmt & _ & _ & _ & _ & Hrecon & _).
  split; [|split].
  - apply (Hfmt (initialState sampleDate)).
    unfold valid_calendar. simpl. lia.
  - reflexivity.
  - apply (Hrecon POLICY_MATRIX (initialState sampleDate)). reflexivity.
Defined.

(** C7 as the specification words it fails: the sequence number is not
    assigned, it is the constant 45, and two different checkouts get the
    same identifier. *)
Lemma rid_shared_by_two_checkouts :
  initialState sampleDate <> laterCheckout
  /\ rid (initialState sampleDate) = "RID-JP-20250827-000045"
  /\ rid laterCheckout = "RID-JP-20250827-000045".
Proof.
  split; [|split; reflexivity].
  intros H. apply (f_equal merchantName) in H. discriminate H.
Qed.

(** ** Receipt and reconciliation row *)

Lemma reconField_amounts (matrix : list PolicyRow.t) (st : AppState) :
  reconField matrix st "Amount_Gross"
  = Some (csvEscape (number_toString (Math_round (totalJPY st))))
  /\ reconField matrix st "Amount_Net"
     = Some (csvEscape (number_toString (Math_round (totalJPY st - 35)))).
Proof. split; reflexivity. Qed.

(** C8, as the code has it.  The receipt and the reconciliation row carry
    the same identifier and the same net amount, character for character;
    the net amount is the gross total less the fee of 35, rounded to a whole
    number.  The gross total is the total to two decimals in the receipt and
    the total rounded to a whole number in the reconciliation row: the two
    agree when the total is whole.  Both views are functions of the state,
    and their payout figures of the four amounts alone. *)
Theorem receipt_and_recon_agree_on_rid_and_net
    (matrix : list PolicyRow.t) (st : AppState) :
  string_exists csv_special (jurisdiction st) = false ->
  let r := receiptJSON matrix st in
  reconField matrix st "RID" = Some (Receipt.reconciliation_id r)
  /\ Receipt.fees_jpy (Receipt.payout r) = 35
  /\ Receipt.net_jpy (Receipt.payout r)
     = Math_round (Receipt.gross_jpy (Receipt.payout r)
                   - Receipt.fees_jpy (Receipt.payout r))
  /\ reconField matrix st "Amount_Net" = Some (Receipt.net_text r)
  /\ reconField matrix st "Amount_Gross"
     = Some (number_toString (Math_round (Receipt.gross_jpy (Receipt.payout r))))
  /\ (forall z, Receipt.gross_jpy (Receipt.payout r) == inject_Z z ->
                reconField matrix st "Amount_Gross" = Some (Receipt.gross_text r))
  /\ (forall st',
        amounts st' = amounts st ->
        Receipt.payout (receiptJSON matrix st') = Receipt.payout r
        /\ reconField matrix st' "Amount_Gross" = reconField matrix st "Amount_Gross"
        /\ reconField matrix st' "Amount_Net" = reconField matrix st "Amount_Net").
Proof.
  intros Hj. cbv zeta.
  destruct (reconField_amounts matrix st) as [Hg Hn].
  split.
  { rewrite reconField_RID. unfold csvEscape, rid.
    now rewrite (rid_no_special _ _ _ Hj). }
  split; [reflexivity|]. split; [reflexivity|].
  split.
  { rewrite Hn, number_text_is_plain by apply number_toString_text.
    reflexivity. }
  split.
  { rewrite Hg, number_text_is_plain by apply number_toString_text.
    reflexivity. }
  split.
  { intros z Hz. rewrite Hg, number_text_is_plain by apply number_toString_text.
    unfold Receipt.gross_text. f_equal.
    cbn [Receipt.gross_jpy Receipt.payout receiptJSON] in *.
    rewrite (Math_round_comp _ _ Hz), Math_round_whole.
    symmetry. now apply number_toString_comp. }
  intros st' Ha. unfold amounts in Ha.
  assert (Ht : totalJPY st' = totalJPY st).
  { unfold totalJPY. now inversion Ha. }
  destruct (reconField_amounts matrix st') as [Hg' Hn'].
  rewrite Hg, Hn, Hg', Hn', Ht. repeat split.
  cbn [Receipt.payout receiptJSON]. now rewrite Ht.
Qed.

Lemma receipt_and_recon_agree_on_rid_and_net_witness :
  reconField POLICY_MATRIX (initialState sampleDate) "RID"
  = Some "RID-JP-20250827-000045"
  /\ reconField POLICY_MATRIX (initialState sampleDate) "Amount_Net"
     = Some (Receipt.net_text
               (receiptJSON POLICY_MATRIX (initialState sampleDate)))
  /\ Receipt.net_text (receiptJSON POLICY_MATRIX (initialState sampleDate))
     = "11480".
Proof.
  pose proof (receipt_and_recon_agree_on_rid_and_net POLICY_MATRIX
                (initialState sampleDate) eq_refl) as (Hrid & _ & _ & Hnet & _).
  split; [exact Hrid | split; [exact Hnet | reflexivity]].
Defined.

(** C8 as the specification words it fails: with a total of 11515.20 the
    receipt prints the gross total as 11515.2 and the reconciliation row as
    11515. *)
Lemma gross_total_differs_between_views :
  let r := receiptJSON POLICY_MATRIX fractionalTotal in
  Receipt.gross_text r = "11515.2"
  /\ reconField POLICY_MATRIX fractionalTotal "Amount_Gross" = Some "11515"
  /\ reconField POLICY_MATRIX fractionalTotal "Amount_Gross"
     <> Some (Receipt.gross_text r).
Proof.
  cbv zeta. split; [reflexivity|]. split; [reflexivity|].
  intros H. vm_compute in H. discriminate H.
Qed.

(** ** The requested jurisdiction *)

Lemma find_in_filter {A} (p q : A -> bool) (xs : list A) :
  (forall x, p x = true -> q x = true) ->
  find p (filter q xs) = find p xs.
Proof.
  intros Hpq. unfold find. induction xs as [|x xs IH]; simpl; [reflexivity|].
  destruct (q x) eqn:Eq; simpl.
  - now rewrite IH.
  - destruct (p x) eqn:Ep; [|exact IH].
    rewrite (Hpq x Ep) in Eq. discriminate.
Qed.

Lemma snapshot_reads_JP_rows (matrix : list PolicyRow.t) :
  policyApplied (filter is_JP_row matrix) = policyApplied matrix.
Proof.
  assert (Ht : jpTochika (filter is_JP_row matrix) = jpTochika matrix).
  { apply find_in_filter. intros r Hr. unfold is_JP_row.
    now apply andb_true_iff in Hr as [Hc _]. }
  assert (Hu : jpUsdc (filter is_JP_row matrix) = jpUsdc matrix).
  { apply find_in_filter. intros r Hr. unfold is_JP_row.
    now apply andb_true_iff in Hr as [Hc _]. }
  unfold policyApplied. now rewrite Ht, Hu.
Qed.

Lemma rid_JP_HK_differ (st : AppState) :
  rid (setJurisdiction "JP" st) <> rid (setJurisdiction "HK" st).
Proof.
  unfold rid, genRID. cbn [jurisdiction setJurisdiction append].
  intros H. discriminate H.
Qed.

(** C9.  Changing the jurisdiction of a checkout and nothing else leaves the
    policy snapshot, which is computed from the JP rows of the table, and
    with it the total, every gate flag, the quote validity, the gate
    message, the payout figures and the action of the fallback effect as
    they were.  What follows the jurisdiction is the identifier, which
    differs between JP and HK, and the currency label (the receipt also
    repeats the jurisdiction code itself). *)
Theorem gate_does_not_depend_on_jurisdiction
    (matrix : list PolicyRow.t) (st : AppState) (j : string) (clock : Z) :
  let st' := setJurisdiction j st in
  Receipt.policy_snapshot (receiptJSON matrix st')
  = Receipt.policy_snapshot (receiptJSON matrix st)
  /\ policyApplied matrix = policyApplied (filter is_JP_row matrix)
  /\ totalJPY st' = totalJPY st
  /\ windowOK matrix st' = windowOK matrix st
  /\ perTxnOK matrix st' = perTxnOK matrix st
  /\ policyOK matrix st' = policyOK matrix st
  /\ quoteOK st' clock = quoteOK st clock
  /\ gateMessage matrix st' clock = gateMessage matrix st clock
  /\ Receipt.payout (receiptJSON matrix st')
     = Receipt.payout (receiptJSON matrix st)
  /\ autoFallbackEffect st' clock
     = setJurisdiction j (autoFallbackEffect st clock)
  /\ rid st' = genRID j (now st) 45
  /\ currencyLabel st' = (if String.eqb j "JP" then "JPY" else "HKD")
  /\ Receipt.jurisdiction (receiptJSON matrix st') = j
  /\ rid (setJurisdiction "JP" st) <> rid (setJurisdiction "HK" st)
  /\ currencyLabel (setJurisdiction "JP" st)
     <> currencyLabel (setJurisdiction "HK" st).
Proof.
  cbv zeta.
  split; [reflexivity|].
  split; [symmetry; apply snapshot_reads_JP_rows|].
  do 7 (split; [reflexivity|]).
  split.
  { rewrite !fallback_unfold.
    change (fallbackFires (setJurisdiction j st) clock)
      with (fallbackFires st clock).
    now destruct (fallbackFires st clock). }
  do 3 (split; [reflexivity|]).
  split; [apply rid_JP_HK_differ | discriminate].
Qed.

(** C9 as the specification words it fails: besides the identifier and the
    currency label, the receipt repeats the jurisdiction code itself, so a
    third output follows the input. *)
Lemma receipt_repeats_jurisdiction :
  let a := receiptJSON POLICY_MATRIX
             (setJurisdiction "JP" (initialState sampleDate)) in
  let b := receiptJSON POLICY_MATRIX
             (setJurisdiction "HK" (initialState sampleDate)) in
  Receipt.jurisdiction a = "JP" /\ Receipt.jurisdiction b = "HK"
  /\ Receipt.jurisdiction a <> Receipt.jurisdiction b
  /\ Receipt.jurisdiction b <> Receipt.reconciliation_id b
  /\ Receipt.jurisdiction b
     <> currencyLabel (setJurisdiction "HK" (initialState sampleDate)).
Proof.
  cbv zeta. repeat split; try reflexivity; intros H; vm_compute in H;
    discriminate H.
Qed.

(** ** The earlier revision *)

Lemma earlier_snapshot (matrix : list PolicyRow.t) :
  Earlier.policyApplied matrix = policyApplied matrix.
Proof.
  unfold Earlier.policyApplied, policyApplied.
  change (Earlier.jpTochika matrix) with (jpTochika matrix).
  change (Earlier.jpUsdc matrix) with (jpUsdc matrix).
  replace (Earlier.allow_is_on (jpTochika matrix))
    with (row_is_on (jpTochika matrix)) by now destruct (jpTochika matrix).
  replace (Earlier.allow_is_on (jpUsdc matrix))
    with (row_is_on (jpUsdc matrix)) by now destruct (jpUsdc matrix).
  reflexivity.
Qed.

Lemma unlocked_quote_valid (st : AppState) (clock : Z) :
  quoteLocked st = false -> holdValid st clock = true /\ slippageValid st = true.
Proof.
  intros Hu. unfold slippageValid. rewrite holdValid_bool, Hu. now split.
Qed.

(** The two revisions on tables that resolve to the same snapshot. *)
Lemma revisions_agree_on (m m' : list PolicyRow.t) (st : AppState) (clock : Z) :
  policyApplied m = Earlier.policyApplied m' ->
  quoteLocked st = false ->
  policyOK m st = Earlier.allowOverall m' (earlier_inputs st)
  /\ decision_of_message (gateMessage m st clock)
     = decision_of_message (Earlier.gateReason m' (earlier_inputs st)).
Proof.
  intros Hs Hu.
  destruct (unlocked_quote_valid st clock Hu) as [Hh Hv].
  assert (Hw : windowOK m st = Earlier.windowOK m' (earlier_inputs st)).
  { unfold windowOK, Earlier.windowOK. now rewrite Hs. }
  assert (Hc : perTxnOK m st = Earlier.perTxnOK m' (earlier_inputs st)).
  { unfold perTxnOK, Earlier.perTxnOK. now rewrite Hs. }
  assert (Hok : policyOK m st = Earlier.allowOverall m' (earlier_inputs st)).
  { unfold policyOK, Earlier.allowOverall. now rewrite Hs, Hw, Hc. }
  split; [exact Hok|].
  rewrite gate_message_decision, Hh, Hv, Hw, Hc, Hs.
  unfold Earlier.gateReason, Earlier.allowOverall.
  destruct (PolicySnapshot.on_off (Earlier.policyApplied m'));
    destruct (Earlier.windowOK m' (earlier_inputs st));
    destruct (Earlier.perTxnOK m' (earlier_inputs st)); reflexivity.
Qed.

(** C10.  With no quote locked, the current revision on its policy matrix
    and the earlier revision on its own, fed the same jurisdiction, amounts,
    rate and time, resolve the same snapshot, approve or block alike (the
    policy flag, and the flag joined with the quote validity that colours
    the panel) and give a message of the same category; the same holds when both read any
    one table.  The auto-fallback effect of the current revision does not
    touch such a state. *)
Theorem revisions_agree_without_quote_lock (st : AppState) (clock : Z) :
  quoteLocked st = false ->
  policyApplied POLICY_MATRIX = Earlier.policyApplied Earlier.POLICY_MATRIX
  /\ policyOK POLICY_MATRIX st
     = Earlier.allowOverall Earlier.POLICY_MATRIX (earlier_inputs st)
  /\ policyOK POLICY_MATRIX st && quoteOK st clock
     = Earlier.allowOverall Earlier.POLICY_MATRIX (earlier_inputs st)
  /\ decision_of_message (gateMessage POLICY_MATRIX st clock)
     = decision_of_message
         (Earlier.gateReason Earlier.POLICY_MATRIX (earlier_inputs st))
  /\ (forall matrix,
        policyApplied matrix = Earlier.policyApplied matrix
        /\ policyOK matrix st = Earlier.allowOverall matrix (earlier_inputs st)
        /\ decision_of_message (gateMessage matrix st clock)
           = decision_of_message
               (Earlier.gateReason matrix (earlier_inputs st)))
  /\ autoFallbackEffect st clock = st.
Proof.
  intros Hu.
  assert (Hjp : policyApplied POLICY_MATRIX
                = Earlier.policyApplied Earlier.POLICY_MATRIX) by reflexivity.
  split; [exact Hjp|].
  destruct (revisions_agree_on POLICY_MATRIX Earlier.POLICY_MATRIX st clock
              Hjp Hu) as [Hok Hd].
  split; [exact Hok|]. split.
  { destruct (unlocked_quote_valid st clock Hu) as [Hh Hv].
    unfold quoteOK. now rewrite Hh, Hv, andb_true_r. }
  split; [exact Hd|]. split.
  - intros matrix. pose proof (earlier_snapshot matrix) as Hs. symmetry in Hs.
    split; [exact Hs|]. now apply revisions_agree_on.
  - rewrite fallback_unfold. unfold fallbackFires. rewrite Hu.
    now rewrite andb_false_r.
Qed.

Lemma revisions_agree_without_quote_lock_witness :
  policyOK POLICY_MATRIX (state_with_total 20000)
  = Earlier.allowOverall Earlier.POLICY_MATRIX
      (earlier_inputs (state_with_total 20000))
  /\ decision_of_message
       (Earlier.gateReason Earlier.POLICY_MATRIX
          (earlier_inputs (state_with_total 20000)))
     = Some (Blocked CapExceeded)
  /\ decision_of_message
       (gateMessage POLICY_MATRIX (state_with_total 20000) 0)
     = decision_of_message
         (Earlier.gateReason Earlier.POLICY_MATRIX
            (earlier_inputs (state_with_total 20000))).
Proof.
  pose proof (revisions_agree_without_quote_lock (state_with_total 20000) 0
                eq_refl) as (_ & Hok & _ & Hd & _).
  split; [exact Hok | split; [reflexivity | exact Hd]].
Defined.

(* ------------------------------------------------------------------ *)
(** * Further properties *)

(** ** The CSV writer *)

Lemma append_char_cancel (s t : string) (c : ascii) :
  s ++ String c "" = t ++ String c "" -> s = t.
Proof.
  revert t. induction s as [|a s IH]; intros [|b t] H; simpl in H.
  - reflexivity.
  - injection H as _ H. destruct t; discriminate H.
  - injection H as _ H. destruct s; discriminate H.
  - injection H as Hab H. subst b. f_equal. now apply IH.
Qed.

Lemma double_quotes_injective (s t : string) :
  double_quotes s = double_quotes t -> s = t.
Proof.
  revert t. induction s as [|a s IH]; intros [|b t] H; simpl in H.
  - reflexivity.
  - destruct (Ascii.eqb b dquote); discriminate H.
  - destruct (Ascii.eqb a dquote); discriminate H.
  - destruct (Ascii.eqb a dquote) eqn:Ea; destruct (Ascii.eqb b dquote) eqn:Eb.
    + apply Ascii.eqb_eq in Ea, Eb. subst a b.
      injection H as H. f_equal. now apply IH.
    + injection H as Hb _. subst b. rewrite Ascii.eqb_refl in Eb. discriminate.
    + injection H as Ha _. subst a. rewrite Ascii.eqb_refl in Ea. discriminate.
    + injection H as Hab H. subst b. f_equal. now apply IH.
Qed.

Lemma quoted_is_special (s : string) :
  string_exists csv_special (String dquote s) = true.
Proof. reflexivity. Qed.

(** X1.  The CSV writer never writes two different fields as the same cell:
    a field comes through unchanged or wrapped in quotes with its quotes
    doubled, and the cell tells which. *)
Theorem csvEscape_injective (s t : string) :
  csvEscape s = csvEscape t -> s = t.
Proof.
  unfold csvEscape.
  destruct (string_exists csv_special s) eqn:Es;
    destruct (string_exists csv_special t) eqn:Et; intros H.
  - injection H as H. apply append_char_cancel in H.
    now apply double_quotes_injective.
  - subst t. rewrite quoted_is_special in Et. discriminate.
  - subst s. rewrite quoted_is_special in Es. discriminate.
  - exact H.
Qed.

Lemma csvEscape_injective_witness :
  "Sakura, Inc." = "Sakura, Inc.".
Proof.
  apply (csvEscape_injective "Sakura, Inc." "Sakura, Inc."). reflexivity.
Defined.

Lemma exists_false_of_weaker (p q : ascii -> bool) (s : string) :
  (forall c, p c = true -> q c = true) ->
  string_exists q s = false -> string_exists p s = false.
Proof.
  intros Hpq. induction s as [|c s IH]; simpl; [reflexivity|].
  rewrite !orb_false_iff. intros [Hc Hs]. split; [|now apply IH].
  destruct (p c) eqn:E; [|reflexivity]. rewrite (Hpq c E) in Hc. discriminate.
Qed.

Lemma exists_true_of_stronger (p q : ascii -> bool) (s : string) :
  (forall c, p c = true -> q c = true) ->
  string_exists p s = true -> string_exists q s = true.
Proof.
  intros Hpq. induction s as [|c s IH]; simpl; [discriminate|].
  rewrite !orb_true_iff. intros [Hc | Hs]; [left; now apply Hpq | right; now apply IH].
Qed.

(** The characters on which the two revisions of the writer disagree. *)
Lemma csv_classes_differ_on (c : ascii) :
  csv_special c = EarlierCSV.csv_special c
  \/ c = backslash \/ c = "n"%char \/ c = newline.
Proof.
  destruct c as [[] [] [] [] [] [] [] []]; vm_compute; auto.
Qed.

Lemma csv_classes_agree (s : string) :
  string_exists (fun c => Ascii.eqb c backslash || Ascii.eqb c "n"
                          || Ascii.eqb c newline) s = false ->
  string_exists csv_special s = string_exists EarlierCSV.csv_special s.
Proof.
  induction s as [|c s IH]; simpl; [reflexivity|].
  rewrite orb_false_iff. intros [Hc Hs]. rewrite (IH Hs). f_equal.
  destruct (csv_classes_differ_on c) as [H | [H | [H | H]]]; [exact H | | |];
    subst c; vm_compute in Hc; discriminate.
Qed.

(** X2.  The two revisions of the CSV writer give the same cell for every
    field free of backslash, letter n and line break.  They part on the
    rest: the current writer leaves a field with a line break as it is
    unless the field also holds a quote, comma, backslash or n, where the
    earlier writer quotes it; and the current writer quotes every field
    with a backslash or an n, which the earlier one leaves alone unless it
    holds a quote, comma or line break. *)
Theorem csv_writers_compared :
  (forall s,
      string_exists (fun c => Ascii.eqb c backslash || Ascii.eqb c "n"
                              || Ascii.eqb c newline) s = false ->
      csvEscape s = EarlierCSV.csvEscape s)
  /\ (forall s,
        has_newline s = true ->
        string_exists csv_special s = false ->
        csvEscape s = s
        /\ EarlierCSV.csvEscape s
           = String dquote (double_quotes s ++ String dquote ""))
  /\ (forall s,
        string_exists (fun c => Ascii.eqb c backslash || Ascii.eqb c "n") s
        = true ->
        csvEscape s = String dquote (double_quotes s ++ String dquote ""))
  /\ (forall s,
        string_exists EarlierCSV.csv_special s = false ->
        EarlierCSV.csvEscape s = s).
Proof.
  split; [|split; [|split]].
  - intros s H. unfold csvEscape, EarlierCSV.csvEscape.
    now rewrite (csv_classes_agree s H).
  - intros s Hnl Hplain. unfold csvEscape, EarlierCSV.csvEscape.
    rewrite Hplain. split; [reflexivity|].
    replace (string_exists EarlierCSV.csv_special s) with true; [reflexivity|].
    symmetry. apply (exists_true_of_stronger is_newline); [|exact Hnl].
    intros c Hc. unfold EarlierCSV.csv_special, is_newline in *.
    rewrite Hc. apply orb_true_r.
  - intros s H. unfold csvEscape.
    replace (string_exists csv_special s) with true; [reflexivity|].
    symmetry. revert H. apply exists_true_of_stronger.
    intros c Hc. unfold csv_special.
    apply orb_true_iff in Hc as [Hc | Hc]; rewrite Hc;
      rewrite ?orb_true_r; reflexivity.
  - intros s H. unfold EarlierCSV.csvEscape. now rewrite H.
Qed.

Lemma csv_writers_compared_witness :
  csvEscape "Tanaka" = String dquote ("Tanaka" ++ String dquote "")
  /\ EarlierCSV.csvEscape "Tanaka" = "Tanaka"
  /\ csvEscape (String "a" (String newline "b"))
     = String "a" (String newline "b")
  /\ csvEscape "JPY" = EarlierCSV.csvEscape "JPY".
Proof.
  pose proof csv_writers_compared as (Hsame & Hnl & Hn & Hold).
  split; [|split; [|split]].
  - apply (Hn "Tanaka"). reflexivity.
  - apply (Hold "Tanaka"). reflexivity.
  - apply (Hnl (String "a" (String newline "b"))); reflexivity.
  - apply (Hsame "JPY"). reflexivity.
Defined.

(** ** The clock text and malformed windows *)

Lemma ascii_compare_refl (a : ascii) : Ascii.compare a a = Eq.
Proof. unfold Ascii.compare. apply N.compare_refl. Qed.

Lemma string_compare_refl (s : string) : String.compare s s = Eq.
Proof.
  induction s as [|a s IH]; simpl; [reflexivity|].
  now rewrite ascii_compare_refl.
Qed.

(** X3.  For a valid time of day the clock text holds five characters, and
    two valid times print alike only when hour and minute are the same: the
    text loses nothing of the time of day. *)
Theorem hhmm_five_characters_and_faithful (d d' : Date) :
  valid_clock d -> valid_clock d' ->
  String.length (hhmm d) = 5%nat
  /\ (hhmm d = hhmm d' <->
      getHours d = getHours d' /\ getMinutes d = getMinutes d').
Proof.
  intros [Hh Hm] [Hh' Hm']. split.
  - rewrite hhmm_clockText. unfold clockText.
    destruct (two_digits_facts (getHours d)) as (L1 & _); [lia|].
    destruct (two_digits_facts (getMinutes d)) as (L2 & _); [lia|].
    rewrite !length_append, L1, L2. reflexivity.
  - split.
    + intros E.
      pose proof (string_compare_refl (hhmm d')) as Hc.
      rewrite <- E in Hc at 1. rewrite !hhmm_clockText in Hc.
      rewrite clockText_compare in Hc by lia.
      apply Nat.compare_eq_iff in Hc. unfold minuteOfDay in Hc. lia.
    + intros [E1 E2]. unfold hhmm. now rewrite E1, E2.
Qed.

Lemma hhmm_five_characters_and_faithful_witness :
  String.length (hhmm (now (state_at 9 5))) = 5%nat
  /\ hhmm (now (state_at 9 5)) = "09:05".
Proof.
  pose proof (hhmm_five_characters_and_faithful
                (now (state_at 9 5)) (now (state_at 9 5))) as H.
  assert (Hv : valid_clock (now (state_at 9 5))) by (split; simpl; lia).
  split; [exact (proj1 (H Hv Hv)) | reflexivity].
Defined.

Lemma split_dash_prefix (s rest : string) :
  has_dash s = false ->
  split "-" (s ++ "-" ++ rest) = s :: split "-" rest.
Proof.
  unfold has_dash. intros Hs. induction s as [|c s IH]; simpl in *.
  - reflexivity.
  - apply orb_false_iff in Hs as [Hc Hs]. rewrite Hc, (IH Hs). reflexivity.
Qed.

(** X4.  What the window check does with windows that are not a start, a
    dash and a later end.  A window with no dash admits no time.  A window
    whose start lies after its end, such as an overnight 22:00-06:00, admits
    no time either.  Whatever follows a second dash is not read. *)
Theorem withinWindow_malformed_windows :
  (forall d w, has_dash w = false -> withinWindow d w = false)
  /\ (forall d h1 m1 h2 m2,
        valid_clock d ->
        (h1 < 100)%nat -> (m1 < 60)%nat -> (h2 < 100)%nat -> (m2 < 60)%nat ->
        (minuteOfDay h2 m2 < minuteOfDay h1 m1)%nat ->
        withinWindow d (clockText h1 m1 ++ "-" ++ clockText h2 m2) = false)
  /\ (forall d start end_ extra,
        has_dash start = false -> has_dash end_ = false ->
        withinWindow d (start ++ "-" ++ end_ ++ "-" ++ extra)
        = withinWindow d (start ++ "-" ++ end_)).
Proof.
  split; [|split].
  - intros d w Hw. unfold withinWindow. now rewrite split_no_dash.
  - intros d h1 m1 h2 m2 Hv H1 M1 H2 M2 Hrev.
    rewrite withinWindow_minutes by assumption.
    apply andb_false_iff. rewrite !Nat.leb_gt. lia.
  - intros d start end_ extra Hs He.
    rewrite (withinWindow_bounds d start end_ Hs He).
    unfold withinWindow. rewrite (split_dash_prefix start _ Hs).
    rewrite (split_dash_prefix end_ extra He). reflexivity.
Qed.

Lemma withinWindow_malformed_windows_witness :
  withinWindow (now (state_at 23 30)) "22:00-06:00" = false
  /\ withinWindow (now (state_at 5 0)) "22:00-06:00" = false
  /\ withinWindow (now (state_at 12 0)) "0900 to 2000" = false
  /\ withinWindow (now (state_at 12 0)) "09:00-20:00-JST" = true.
Proof.
  pose proof withinWindow_malformed_windows as (Hnodash & Hrev & Hextra).
  assert (Hv : forall h m, (h < 24)%nat -> (m < 60)%nat ->
                           valid_clock (now (state_at h m)))
    by (intros h m Hh Hm; split; assumption).
  split; [|split; [|split]].
  - apply (Hrev (now (state_at 23 30)) 22 0 6 0)%nat;
      try (apply Hv); unfold minuteOfDay; lia.
  - apply (Hrev (now (state_at 5 0)) 22 0 6 0)%nat;
      try (apply Hv); unfold minuteOfDay; lia.
  - apply Hnodash. reflexivity.
  - change "09:00-20:00-JST" with ("09:00" ++ "-" ++ "20:00" ++ "-" ++ "JST").
    rewrite (Hextra (now (state_at 12 0)) "09:00" "20:00" "JST");
      reflexivity.
Defined.

(** ** The merged snapshot *)

Lemma seen_iff (x : string) (seen : list string) :
  existsb (String.eqb x) seen = true <-> In x seen.
Proof.
  rewrite existsb_exists. split.
  - intros (y & Hy & E). apply String.eqb_eq in E. now subst y.
  - intros H. exists x. split; [exact H | apply String.eqb_refl].
Qed.

Lemma set_insert_In (x : string) (xs seen : list string) :
  In x (set_insert seen xs) <-> In x xs /\ ~ In x seen.
Proof.
  revert seen. induction xs as [|y ys IH]; intros seen; simpl.
  - tauto.
  - destruct (existsb (String.eqb y) seen) eqn:E.
    + apply seen_iff in E. rewrite IH. split.
      * intros [H1 H2]. auto.
      * intros [[H | H] H2]; [subst y; contradiction | auto].
    + assert (Hy : ~ In y seen).
      { intros H. apply seen_iff in H. congruence. }
      simpl. rewrite IH. simpl. split.
      * intros [H | [H1 H2]]; [subst y; auto | split; [auto|tauto]].
      * intros [[H | H] H2]; [now left|].
        destruct (String.eqb_spec y x) as [Hyx | Hyx]; [now left|].
        right. split; [exact H|]. intros [H3 | H3]; contradiction.
Qed.

Lemma set_insert_NoDup (xs seen : list string) : NoDup (set_insert seen xs).
Proof.
  revert seen. induction xs as [|y ys IH]; intros seen; simpl.
  - constructor.
  - destruct (existsb (String.eqb y) seen); [apply IH|].
    constructor; [|apply IH].
    rewrite set_insert_In. intros [_ H]. apply H. now left.
Qed.

Lemma set_insert_fixed (xs seen : list string) :
  NoDup xs -> (forall x, In x xs -> ~ In x seen) -> set_insert seen xs = xs.
Proof.
  revert seen. induction xs as [|y ys IH]; intros seen Hnd Hdis; simpl.
  - reflexivity.
  - inversion Hnd as [|? ? Hy Hys]; subst.
    destruct (existsb (String.eqb y) seen) eqn:E.
    + apply seen_iff in E. exfalso. apply (Hdis y); [now left | exact E].
    + f_equal. apply IH; [exact Hys|].
      intros x Hx [H | H]; [subst x; contradiction|].
      apply (Hdis x); [now right | exact H].
Qed.

(** X6.  The disclosure codes of the snapshot list every code of the two
    merged rows and nothing else, each once; putting the list through the
    merge again changes nothing. *)
Theorem snapshot_disclosures_are_the_union (matrix : list PolicyRow.t) :
  let ds := PolicySnapshot.required_disclosures (policyApplied matrix) in
  NoDup ds
  /\ (forall c, In c ds <-> In c (merged_disclosures matrix))
  /\ Array_from_Set ds = ds.
Proof.
  cbv zeta. cbn [PolicySnapshot.required_disclosures policyApplied].
  fold (merged_disclosures matrix). unfold Array_from_Set.
  split; [apply set_insert_NoDup|]. split.
  - intros c. rewrite set_insert_In. simpl. tauto.
  - apply set_insert_fixed; [apply set_insert_NoDup | auto].
Qed.

Lemma find_app_found {A} (p : A -> bool) (xs ys : list A) (a : A) :
  find p xs = Some a -> find p (xs ++ ys) = Some a.
Proof.
  unfold find. induction xs as [|x xs IH]; simpl; [discriminate|].
  destruct (p x); [auto | exact IH].
Qed.

(** X7.  Once a table holds a JP row for Tochika and one for USDC, rows
    filed after it never change the snapshot: of several rows for the same
    jurisdiction and instrument only the first in table order is read, so a
    later version of a rule appended to the table has no effect. *)
Theorem rows_after_first_match_are_ignored
    (matrix extra : list PolicyRow.t) (a b : PolicyRow.t) :
  jpTochika matrix = Some a -> jpUsdc matrix = Some b ->
  policyApplied (matrix ++ extra) = policyApplied matrix.
Proof.
  intros Ha Hb.
  assert (Ha' : jpTochika (matrix ++ extra) = Some a)
    by (apply find_app_found; exact Ha).
  assert (Hb' : jpUsdc (matrix ++ extra) = Some b)
    by (apply find_app_found; exact Hb).
  unfold policyApplied. now rewrite Ha, Hb, Ha', Hb'.
Qed.

Lemma rows_after_first_match_are_ignored_witness :
  policyApplied (POLICY_MATRIX ++ [newerTochikaRow])
  = policyApplied POLICY_MATRIX
  /\ PolicySnapshot.on_off (policyApplied (POLICY_MATRIX ++ [newerTochikaRow]))
     = ON.
Proof.
  split; [|reflexivity].
  apply (rows_after_first_match_are_ignored POLICY_MATRIX [newerTochikaRow]
           (nth 0 POLICY_MATRIX newerTochikaRow)
           (nth 1 POLICY_MATRIX newerTochikaRow)); reflexivity.
Defined.

Lemma snapshot_caps_cover (matrix : list PolicyRow.t) (r : PolicyRow.t) :
  jpTochika matrix = Some r \/ jpUsdc matrix = Some r ->
  PolicyRow.max_txn_local r
  <= PolicySnapshot.max_per_txn_local (policyApplied matrix)
  /\ PolicyRow.daily_cap_local r
     <= PolicySnapshot.daily_cap_local (policyApplied matrix).
Proof.
  intros [H | H]; cbn [PolicySnapshot.max_per_txn_local
                       PolicySnapshot.daily_cap_local policyApplied];
    rewrite H; cbn [option_map nullish]; unfold Math_max; split;
    (apply Q.le_max_l || apply Q.le_max_r).
Qed.

(** X8.  The snapshot is a ceiling over the two merged rows: it is ON as
    soon as one of them is ON, its caps are never below the caps of either
    row, and a total within the per-transaction cap of either row passes the
    cap check - a basket may exceed the USDC row's own cap as long as it
    stays within the Tochika row's. *)
Theorem snapshot_is_ceiling_of_rows
    (matrix : list PolicyRow.t) (st : AppState) (r : PolicyRow.t) :
  jpTochika matrix = Some r \/ jpUsdc matrix = Some r ->
  (PolicyRow.allow r = ON -> PolicySnapshot.on_off (policyApplied matrix) = ON)
  /\ PolicyRow.max_txn_local r
     <= PolicySnapshot.max_per_txn_local (policyApplied matrix)
  /\ PolicyRow.daily_cap_local r
     <= PolicySnapshot.daily_cap_local (policyApplied matrix)
  /\ (totalJPY st <= PolicyRow.max_txn_local r -> perTxnOK matrix st = true).
Proof.
  intros Hr. destruct (snapshot_caps_cover matrix r Hr) as [Hc Hd].
  split; [|split; [exact Hc | split; [exact Hd|]]].
  - intros Hon. cbn [PolicySnapshot.on_off policyApplied].
    destruct Hr as [H | H]; rewrite H; cbn [row_is_on]; rewrite Hon;
      cbn [OnOff_eqb]; rewrite ?orb_true_r; reflexivity.
  - intros Ht. unfold perTxnOK, le. apply orb_true_iff. left.
    apply Qle_bool_iff. eapply Qle_trans; [exact Ht | exact Hc].
Qed.

Lemma snapshot_is_ceiling_of_rows_witness :
  perTxnOK POLICY_MATRIX (state_with_total 10000) = true
  /\ 5000 < totalJPY (state_with_total 10000).
Proof.
  split; [|reflexivity].
  apply (snapshot_is_ceiling_of_rows POLICY_MATRIX (state_with_total 10000)
           (nth 0 POLICY_MATRIX newerTochikaRow)).
  - left. reflexivity.
  - discriminate.
Defined.

(** ** The life of a quote *)

Lemma elapsed_monotone (qs : Date) (c c' : Z) :
  (c <= c')%Z -> elapsedSec c qs <= elapsedSec c' qs.
Proof.
  intros H. unfold elapsedSec.
  assert (Hq : inject_Z (c - getTime qs) <= inject_Z (c' - getTime qs))
    by (rewrite <- Zle_Qle; lia).
  unfold Qdiv. change (/ 1000) with (1 # 1000). lra.
Qed.

Lemma holdValid_stays_false (st : AppState) (c c' : Z) :
  quoteLocked st = true -> (c <= c')%Z ->
  holdValid st c = false -> holdValid st c' = false.
Proof.
  intros Hl Hc. rewrite !holdValid_bool, Hl. cbn [negb orb].
  destruct (quoteStart st) as [qs|]; [|auto].
  unfold le. intros H.
  destruct (Qle_bool (elapsedSec c' qs) (holdSec st)) eqn:E; [|reflexivity].
  apply Qle_bool_iff in E.
  assert (H' : Qle_bool (elapsedSec c qs) (holdSec st) = true).
  { apply Qle_bool_iff.
    eapply Qle_trans; [apply elapsed_monotone; exact Hc | exact E]. }
  congruence.
Qed.

(** X9.  A locked quote that is not valid at one clock reading is not valid
    at any later one, as long as the state stays as it is: an expired hold
    never comes back by waiting, and the slippage check does not read the
    clock.  Only the lock and reset buttons end the condition. *)
Theorem invalid_quote_stays_invalid (st : AppState) (c c' : Z) :
  quoteLocked st = true -> (c <= c')%Z ->
  (holdValid st c = false -> holdValid st c' = false)
  /\ (quoteOK st c = false -> quoteOK st c' = false).
Proof.
  intros Hl Hc. split; [now apply holdValid_stays_false|].
  unfold quoteOK. rewrite !andb_false_iff.
  intros [H | H]; [left; now apply (holdValid_stays_false st c c') | now right].
Qed.

Lemma invalid_quote_stays_invalid_witness :
  quoteOK (locked_at 150 150) (getTime sampleDate + 91000) = false
  /\ quoteOK (locked_at 150 150) (getTime sampleDate + 3600000) = false.
Proof.
  split; [reflexivity|].
  apply (invalid_quote_stays_invalid (locked_at 150 150)
           (getTime sampleDate + 91000) (getTime sampleDate + 3600000));
    [reflexivity | simpl; lia | reflexivity].
Defined.

Lemma fresh_lock_unfold (st : AppState) (today : Date) (c : Z) :
  quoteOK (lockQuote today st) c
  = le (elapsedSec c today) (holdSec st)
    && (if strict_eq (rateUSDCJPY st) 0 then false
        else le (Math_abs ((rateUSDCJPY st - rateUSDCJPY st) / rateUSDCJPY st)
                 * 10000)
                (slippageBps st)).
Proof.
  unfold quoteOK. rewrite holdValid_bool. reflexivity.
Qed.

(** X10.  A quote is valid at the instant it is locked whenever the current
    rate is not zero and the hold and slippage settings are not negative.
    Locked at a rate of zero it is invalid from the start and at every
    clock reading, because the slippage quotient divides by the locked
    rate; locked with a negative hold it is expired at once. *)
Theorem fresh_lock_validity (st : AppState) (today : Date) :
  (~ rateUSDCJPY st == 0 -> 0 <= holdSec st -> 0 <= slippageBps st ->
   quoteOK (lockQuote today st) (getTime today) = true)
  /\ (rateUSDCJPY st == 0 ->
      forall c, quoteOK (lockQuote today st) c = false)
  /\ (holdSec st < 0 ->
      quoteOK (lockQuote today st) (getTime today) = false).
Proof.
  assert (He : elapsedSec (getTime today) today == 0).
  { unfold elapsedSec. rewrite Z.sub_diag. reflexivity. }
  split; [|split].
  - intros Hr Hh Hs. rewrite fresh_lock_unfold. apply andb_true_iff. split.
    + unfold le. apply Qle_bool_iff. now rewrite He.
    + unfold strict_eq, le, Math_abs.
      destruct (Qeq_bool (rateUSDCJPY st) 0) eqn:E.
      * apply Qeq_bool_iff in E. contradiction.
      * apply Qle_bool_iff.
        assert (Hz : (rateUSDCJPY st - rateUSDCJPY st) / rateUSDCJPY st == 0)
          by (field; exact Hr).
        rewrite Hz. exact Hs.
  - intros Hr c. rewrite fresh_lock_unfold. unfold strict_eq.
    rewrite (Qeq_eq_bool _ _ Hr). apply andb_false_r.
  - intros Hh. rewrite fresh_lock_unfold. apply andb_false_iff. left.
    unfold le. destruct (Qle_bool _ _) eqn:E; [|reflexivity].
    apply Qle_bool_iff in E. rewrite He in E.
    exfalso. exact (Qlt_not_le _ _ Hh E).
Qed.

Lemma fresh_lock_validity_witness :
  quoteOK (lockQuote sampleDate (initialState sampleDate)) (getTime sampleDate)
  = true
  /\ quoteOK (lockQuote sampleDate (locked_at 150 0)) (getTime sampleDate)
     = false.
Proof.
  split.
  - apply (proj1 (fresh_lock_validity (initialState sampleDate) sampleDate));
      discriminate.
  - apply (proj1 (proj2 (fresh_lock_validity (locked_at 150 0) sampleDate))).
    reflexivity.
Defined.

(** X11.  Reset undoes a lock: locking a state that never held a lock and
    resetting gives the state back, whatever the lock time; and after a
    reset the quote is valid at every clock reading. *)
Theorem reset_undoes_lock (st : AppState) (today : Date) :
  never_locked st ->
  resetQuote (lockQuote today st) = st
  /\ (forall c, quoteOK (resetQuote (lockQuote today st)) c = true).
Proof.
  intros (Hl & Hr & Hs). split; [|reflexivity].
  destruct st; simpl in *. subst. reflexivity.
Qed.

Lemma reset_undoes_lock_witness :
  resetQuote (lockQuote sampleDate (initialState sampleDate))
  = initialState sampleDate.
Proof.
  apply (reset_undoes_lock (initialState sampleDate) sampleDate).
  repeat split.
Defined.

Lemma quoteOK_after_fallback (st : AppState) (clock c : Z) :
  quoteOK (autoFallbackEffect st clock) c = quoteOK st c.
Proof.
  rewrite fallback_unfold. now destruct (fallbackFires st clock).
Qed.

Lemma invalid_quote_not_approved
    (matrix : list PolicyRow.t) (st : AppState) (clock : Z) :
  quoteOK st clock = false ->
  decision_of_message (gateMessage matrix st clock) <> Some Approved.
Proof.
  intros Hq. rewrite gate_message_decision. unfold quoteOK in Hq.
  destruct (PolicySnapshot.on_off (policyApplied matrix));
    destruct (windowOK matrix st); destruct (perTxnOK matrix st);
    destruct (holdValid st clock); destruct (slippageValid st);
    simpl in *; congruence.
Qed.

(** X12.  The fallback moves the value to the card but does not clear the
    block: the quote validity does not read the amounts, so after the effect
    has fired the quote is as invalid as before and the gate message is
    still not the approval.  The reset button then makes the quote valid
    and leaves the USDC amount at zero: the value stays on the card. *)
Theorem fallback_leaves_checkout_blocked
    (matrix : list PolicyRow.t) (st : AppState) (clock : Z) :
  fallbackFires st clock = true ->
  let st' := autoFallbackEffect st clock in
  (forall c, quoteOK st' c = quoteOK st c)
  /\ decision_of_message (gateMessage matrix st' clock) <> Some Approved
  /\ usdcAmt (resetQuote st') = 0
  /\ cardJPY (resetQuote st') = cardJPY st'
  /\ (forall c, quoteOK (resetQuote st') c = true).
Proof.
  intros Hf. cbv zeta.
  split; [intros c; apply quoteOK_after_fallback|].
  split.
  { apply invalid_quote_not_approved. rewrite quoteOK_after_fallback.
    now apply fallbackFires_iff in Hf as (_ & Hq & _). }
  split; [|split; reflexivity].
  rewrite fallback_unfold, Hf. reflexivity.
Qed.

Lemma fallback_leaves_checkout_blocked_witness :
  decision_of_message
    (gateMessage POLICY_MATRIX
       (autoFallbackEffect (expired_with_card 500) expiry_clock) expiry_clock)
  <> Some Approved
  /\ usdcAmt (resetQuote (autoFallbackEffect (expired_with_card 500)
                            expiry_clock)) = 0.
Proof.
  pose proof (fallback_leaves_checkout_blocked POLICY_MATRIX
                (expired_with_card 500) expiry_clock eq_refl)
    as (_ & Hd & Hu & _).
  exact (conj Hd Hu).
Defined.

(** ** Receipt, reconciliation row and gate *)

(** X13.  The route on the receipt follows the policy checks alone.  It
    reads blocked exactly when the gate message gives one of the three
    policy reasons; when the gate blocks for the quote, expired or slipped,
    the receipt still reads policy-approved. *)
Theorem receipt_route_follows_policy_checks
    (matrix : list PolicyRow.t) (st : AppState) (clock : Z) :
  let d := decision_of_message (gateMessage matrix st clock) in
  let route := Receipt.tochika_route (receiptJSON matrix st) in
  (route = "blocked"
   <-> d = Some (Blocked PolicyDisabled) \/ d = Some (Blocked OutsideWindow)
       \/ d = Some (Blocked CapExceeded))
  /\ (d = Some (Blocked QuoteExpired) \/ d = Some (Blocked SlippageBreached)
      -> route = "policy-approved")
  /\ (d = Some Approved -> route = "policy-approved").
Proof.
  cbv zeta. rewrite gate_message_decision.
  cbn [Receipt.tochika_route receiptJSON]. unfold policyOK.
  destruct (PolicySnapshot.on_off (policyApplied matrix));
    destruct (windowOK matrix st); destruct (perTxnOK matrix st);
    destruct (holdValid st clock); destruct (slippageValid st); simpl;
    (split; [split; [intros H; try discriminate H; auto
                    | intros [H | [H | H]]; try discriminate H; reflexivity]
            | split; [intros [H | H]; try discriminate H; reflexivity
                     | intros H; try discriminate H; reflexivity]]).
Qed.

Lemma receipt_route_follows_policy_checks_witness :
  Receipt.tochika_route
    (receiptJSON POLICY_MATRIX (locked_at 150 150)) = "policy-approved"
  /\ decision_of_message
       (gateMessage POLICY_MATRIX (locked_at 150 150) expiry_clock)
     = Some (Blocked QuoteExpired).
Proof.
  split; [|reflexivity].
  apply (proj1 (proj2 (receipt_route_follows_policy_checks POLICY_MATRIX
                         (locked_at 150 150) expiry_clock))).
  left. reflexivity.
Defined.

(** X14.  The asset columns of the reconciliation row follow the fallback:
    while the effect is about to fire they name the USDC leg, and on the
    state it leaves they name the card, with no chain and no transaction
    reference. *)
Theorem recon_asset_columns_after_fallback (st : AppState) (clock : Z) :
  fallbackFires st clock = true ->
  let st' := autoFallbackEffect st clock in
  (assetInType st, assetInChain st, assetInTXID st)
  = ("USDC", "allowlisted", "0x...ab87")
  /\ (assetInType st', assetInChain st', assetInTXID st') = ("Card", "—", "—").
Proof.
  intros Hf. cbv zeta. split.
  - apply fallbackFires_iff in Hf as (_ & _ & _ & Hu).
    apply gt_zero_iff in Hu. unfold assetInType, assetInChain, assetInTXID.
    rewrite Hu. reflexivity.
  - unfold assetInType, assetInChain, assetInTXID.
    rewrite (fallback_zeroes_usdc st clock Hf). reflexivity.
Qed.

Lemma recon_asset_columns_after_fallback_witness :
  assetInType (autoFallbackEffect (expired_with_card 500) expiry_clock)
  = "Card"
  /\ assetInType (expired_with_card 500) = "USDC".
Proof.
  pose proof (recon_asset_columns_after_fallback (expired_with_card 500)
                expiry_clock eq_refl) as [Hb Ha].
  split; [now inversion Ha | now inversion Hb].
Defined.

(** X15.  The net amount of the receipt is a whole number within half a
    yen of the gross total less the fee, and the gross total the
    reconciliation row prints is a whole number within half a yen of the
    gross total of the receipt. *)
Theorem payout_rounding (matrix : list PolicyRow.t) (st : AppState) :
  let p := Receipt.payout (receiptJSON matrix st) in
  (exists z, Receipt.net_jpy p = inject_Z z)
  /\ Qabs (Receipt.net_jpy p - (Receipt.gross_jpy p - Receipt.fees_jpy p))
     <= 1 # 2
  /\ (exists z,
        reconField matrix st "Amount_Gross" = Some (number_toString (inject_Z z))
        /\ Qabs (inject_Z z - Receipt.gross_jpy p) <= 1 # 2).
Proof.
  cbv zeta. cbn [Receipt.payout Receipt.net_jpy Receipt.gross_jpy
                 Receipt.fees_jpy receiptJSON].
  split; [eexists; reflexivity|]. split.
  - destruct (Math_round_bounds (totalJPY st - 35)) as [Hu Hl].
    apply Qabs_Qle_condition. split; lra.
  - exists (Qfloor (totalJPY st + (1 # 2))).
    fold (Math_round (totalJPY st)). split.
    + destruct (reconField_amounts matrix st) as [Hg _]. rewrite Hg.
      now rewrite number_text_is_plain by apply number_toString_text.
    + destruct (Math_round_bounds (totalJPY st)) as [Hu Hl].
      apply Qabs_Qle_condition. split; lra.
Qed.

Lemma perTxnOK_antitone (matrix : list PolicyRow.t) (st st' : AppState) :
  totalJPY st' <= totalJPY st ->
  perTxnOK matrix st = true -> perTxnOK matrix st' = true.
Proof.
  unfold perTxnOK, le. rewrite !orb_true_iff, !Qle_bool_iff.
  intros Ht [H | H]; [left; eapply Qle_trans; eassumption | now right].
Qed.

(** X16.  Lowering the total never turns an approval into a block: of two
    checkouts at the same time whose quotes are both valid, if the one with
    the larger total is approved, so is the other. *)
Theorem approval_survives_smaller_total
    (matrix : list PolicyRow.t) (st st' : AppState) (clock : Z) :
  now st' = now st ->
  totalJPY st' <= totalJPY st ->
  quoteOK st' clock = true ->
  decision_of_message (gateMessage matrix st clock) = Some Approved ->
  decision_of_message (gateMessage matrix st' clock) = Some Approved.
Proof.
  intros Hnow Ht Hq. rewrite !gate_message_decision.
  assert (Hw : windowOK matrix st' = windowOK matrix st)
    by (unfold windowOK; now rewrite Hnow).
  pose proof (perTxnOK_antitone matrix st st' Ht) as Hc.
  unfold quoteOK in Hq. apply andb_true_iff in Hq as [Hh Hs].
  rewrite Hw, Hh, Hs.
  destruct (PolicySnapshot.on_off (policyApplied matrix));
    destruct (windowOK matrix st); destruct (perTxnOK matrix st);
    destruct (holdValid st clock); destruct (slippageValid st);
    simpl; intros H; try discriminate H.
  now rewrite Hc.
Qed.

Lemma approval_survives_smaller_total_witness :
  decision_of_message (gateMessage POLICY_MATRIX (state_with_total 9000) 0)
  = Some Approved.
Proof.
  apply (approval_survives_smaller_total POLICY_MATRIX
           (state_with_total 10000) (state_with_total 9000) 0);
    try reflexivity.
  discriminate.
Defined.

(** X17.  The catch-all messages are never shown: no table, state and clock
    make the current revision answer with its policy-rule message or the
    earlier revision with its unknown message. *)
Theorem catch_all_messages_unreachable
    (matrix : list PolicyRow.t) (st : AppState) (est : Earlier.AppState)
    (clock : Z) :
  gateMessage matrix st clock <> "Blocked: Policy rule."
  /\ Earlier.gateReason matrix est <> "Blocked: Unknown.".
Proof.
  split.
  - unfold gateMessage, policyOK, quoteOK.
    destruct (PolicySnapshot.on_off (policyApplied matrix));
      destruct (windowOK matrix st); destruct (perTxnOK matrix st);
      destruct (holdValid st clock); destruct (slippageValid st);
      simpl; discriminate.
  - unfold Earlier.gateReason, Earlier.allowOverall.
    destruct (PolicySnapshot.on_off (Earlier.policyApplied matrix));
      destruct (Earlier.windowOK matrix est);
      destruct (Earlier.perTxnOK matrix est); simpl; discriminate.
Qed.

(** ** The sequence text of the identifier *)

Lemma append_cancel_l (s t t' : string) : s ++ t = s ++ t' -> t = t'.
Proof.
  induction s as [|c s IH]; simpl; intros H; [exact H|].
  injection H as H. now apply IH.
Qed.

Lemma zero_padded_value (k : nat) (d : Decimal.uint) :
  decimal_value (repeat_char "0" k ++ NilEmpty.string_of_uint d)
  = Some (Nat.of_uint d).
Proof.
  unfold decimal_value.
  assert (H : exists d', NilEmpty.uint_of_string
                           (repeat_char "0" k ++ NilEmpty.string_of_uint d)
                         = Some d'
                         /\ Nat.of_uint d' = Nat.of_uint d).
  { induction k as [|k (d' & E & V)]; simpl.
    - exists d. split; [apply NilEmpty.usu | reflexivity].
    - exists (Decimal.D0 d'). rewrite E. split; [reflexivity | exact V]. }
  destruct H as (d' & E & V). rewrite E. simpl. now rewrite V.
Qed.

Lemma padded_sequence_value (k n : nat) :
  decimal_value (padStart k "0" (String_of_nat n)) = Some n.
Proof.
  unfold padStart, String_of_nat. rewrite zero_padded_value.
  now rewrite DecimalNat.Unsigned.of_to.
Qed.

(** X18.  The sequence text of an identifier reads back as the sequence
    number it was made from, for every number: padding adds zeros in front
    and a number of more than six digits is printed in full.  Two
    identifiers of the same jurisdiction and date are therefore equal only
    when their sequence numbers are. *)
Theorem genRID_keeps_sequence_number (country : string) (d : Date) (n : nat) :
  (exists text,
      genRID country d n = "RID-" ++ country ++ "-" ++ dateText d ++ "-" ++ text
      /\ decimal_value text = Some n
      /\ (6 <= String.length text)%nat)
  /\ (forall n', genRID country d n = genRID country d n' -> n = n').
Proof.
  split.
  - exists (padStart 6 "0" (String_of_nat n)).
    split; [apply genRID_shape|]. split; [apply padded_sequence_value|].
    unfold padStart. rewrite length_append.
    assert (Hr : forall k, String.length (repeat_char "0" k) = k)
      by (induction k; simpl; congruence).
    rewrite Hr. lia.
  - intros n' H. rewrite !genRID_shape in H.
    do 5 apply append_cancel_l in H.
    pose proof (padded_sequence_value 6 n) as V.
    rewrite H, padded_sequence_value in V. congruence.
Qed.

(** ** The policy export *)

Lemma number_char_not_newline (c : ascii) :
  number_char c = true -> is_newline c = false.
Proof.
  destruct c as [[] [] [] [] [] [] [] []]; vm_compute; congruence.
Qed.

Lemma number_toString_single_line (x : number) :
  has_newline (number_toString x) = false.
Proof.
  pose proof (number_toString_text x) as H. unfold has_newline.
  induction (number_toString x) as [|c s IH]; simpl in *; [reflexivity|].
  apply andb_true_iff in H as [Hc Hs].
  now rewrite (number_char_not_newline c Hc), (IH Hs).
Qed.

Lemma has_newline_append (s t : string) :
  has_newline (s ++ t) = has_newline s || has_newline t.
Proof. apply string_exists_append. Qed.

Lemma double_quotes_newline (s : string) :
  has_newline (double_quotes s) = has_newline s.
Proof.
  unfold has_newline. induction s as [|c s IH]; simpl; [reflexivity|].
  destruct (Ascii.eqb c dquote) eqn:E; simpl; rewrite IH; [|reflexivity].
  apply Ascii.eqb_eq in E. subst c. reflexivity.
Qed.

Lemma csvEscape_newline (s : string) :
  has_newline (csvEscape s) = has_newline s.
Proof.
  unfold csvEscape. destruct (string_exists csv_special s); [|reflexivity].
  change (has_newline (String dquote (double_quotes s ++ String dquote "")))
    with (has_newline (double_quotes s ++ String dquote "")).
  rewrite has_newline_append, double_quotes_newline. apply orb_false_r.
Qed.

Lemma concat_single_line (sep : string) (ls : list string) :
  has_newline sep = false ->
  forallb (fun s => negb (has_newline s)) ls = true ->
  has_newline (String.concat sep ls) = false.
Proof.
  intros Hsep. induction ls as [|x xs IH]; simpl; [reflexivity|].
  rewrite andb_true_iff, negb_true_iff. intros [Hx Hxs].
  destruct xs as [|y ys]; [exact Hx|].
  rewrite !has_newline_append, Hx, Hsep. now apply IH.
Qed.

Lemma split_line (s : string) :
  has_newline s = false -> split newline s = [s].
Proof.
  unfold has_newline, is_newline. induction s as [|c s IH]; simpl; intros H.
  - reflexivity.
  - apply orb_false_iff in H as [Hc Hs]. rewrite Hc, (IH Hs). reflexivity.
Qed.

Lemma split_first_line (s rest : string) :
  has_newline s = false ->
  split newline (s ++ String newline rest) = s :: split newline rest.
Proof.
  unfold has_newline, is_newline. intros Hs.
  induction s as [|c s IH]; simpl in *.
  - reflexivity.
  - apply orb_false_iff in Hs as [Hc Hs]. rewrite Hc, (IH Hs). reflexivity.
Qed.

Lemma split_joined_lines (x : string) (ls : list string) :
  forallb (fun s => negb (has_newline s)) (x :: ls) = true ->
  split newline (String.concat (String newline "") (x :: ls)) = x :: ls.
Proof.
  revert x. induction ls as [|y ys IH]; intros x H;
    cbn [forallb] in H; apply andb_true_iff in H as [Hx H];
    apply negb_true_iff in Hx.
  - simpl. now apply split_line.
  - change (String.concat (String newline "") (x :: y :: ys))
      with (x ++ String newline (String.concat (String newline "") (y :: ys))).
    rewrite split_first_line by exact Hx. f_equal. now apply IH.
Qed.

Lemma policy_cells_single_line (r : PolicyRow.t) :
  row_single_line r = true ->
  forallb (fun s => negb (has_newline s)) (map csvEscape (policyCSVCells r))
  = true.
Proof.
  unfold row_single_line, row_text_fields. rewrite forallb_app.
  intros H. apply andb_true_iff in H as [Hf Hd].
  cbn [forallb] in Hf.
  repeat (apply andb_true_iff in Hf as [?H Hf]).
  assert (Hj : has_newline (String.concat "|" (PolicyRow.required_disclosures r))
               = false) by (apply concat_single_line; [reflexivity | exact Hd]).
  unfold policyCSVCells. cbn [map forallb].
  rewrite !csvEscape_newline, !number_toString_single_line, Hj.
  repeat match goal with
         | Hx : negb (has_newline ?s) = true |- context [has_newline ?s] =>
             rewrite (proj1 (negb_true_iff _) Hx)
         end.
  now destruct (PolicyRow.allow r), (PolicyRow.travel_rule_required r),
    (PolicyRow.sanctions_screen r).
Qed.

(** X19.  When no text field of the rows holds a line break, the policy
    export splits at its line breaks into the header line followed by one
    line per row, in table order; an empty table exports the header alone. *)
Theorem policy_export_one_line_per_row (rows : list PolicyRow.t) :
  forallb row_single_line rows = true ->
  split newline (buildPolicyCSV rows) = policyCSVLines rows
  /\ List.length (split newline (buildPolicyCSV rows)) = S (List.length rows)
  /\ hd "" (split newline (buildPolicyCSV rows))
     = String.concat "," policyCSVHeader.
Proof.
  intros H.
  assert (Hs : split newline (buildPolicyCSV rows) = policyCSVLines rows).
  { unfold buildPolicyCSV, policyCSVLines. apply split_joined_lines.
    cbn [forallb]. apply andb_true_iff. split; [reflexivity|].
    apply forallb_forall. intros l Hl.
    apply in_map_iff in Hl as (r & <- & Hr).
    apply negb_true_iff. apply concat_single_line; [reflexivity|].
    apply policy_cells_single_line.
    exact (proj1 (forallb_forall _ _) H r Hr). }
  rewrite Hs. unfold policyCSVLines. cbn [List.length hd].
  now rewrite length_map.
Qed.

Lemma policy_export_one_line_per_row_witness :
  List.length (split newline (buildPolicyCSV POLICY_MATRIX)) = 5%nat
  /\ split newline (buildPolicyCSV []) = [String.concat "," policyCSVHeader].
Proof.
  split.
  - exact (proj1 (proj2 (policy_export_one_line_per_row POLICY_MATRIX eq_refl))).
  - exact (proj1 (policy_export_one_line_per_row [] eq_refl)).
Defined.

(** ** The slippage check *)

Lemma abs_quotient (a q : Q) : ~ q == 0 -> Qabs (a / q) == Qabs a / Qabs q.
Proof.
  intros Hq. unfold Qdiv. now rewrite Qabs_Qmult, Qabs_Qinv.
Qed.

Lemma Qabs_positive (q : Q) : ~ q == 0 -> 0 < Qabs q.
Proof.
  intros Hq. destruct (Qlt_le_dec 0 (Qabs q)) as [H | H]; [exact H|].
  exfalso. apply Hq.
  pose proof (Qabs_nonneg q) as Hn.
  assert (Hz : Qabs q == 0) by (apply Qle_antisym; assumption).
  pose proof (Qle_Qabs q) as H1. pose proof (Qle_Qabs (- q)) as H2.
  rewrite Qabs_opp in H2. apply Qle_antisym; lra.
Qed.

(** X22.  The slippage check reads the current rate only through its
    distance from the locked rate: of two states with the same bound, the
    one whose rate lies no further from the locked rate passes whenever the
    other does, so a move up and the same move down are judged alike and a
    rate drifting further away never turns a breach into a pass. *)
Theorem slippage_monotone_in_distance (st st' : AppState) (locked : number) :
  slippageBps st' = slippageBps st ->
  Qabs (rateUSDCJPY st' - locked) <= Qabs (rateUSDCJPY st - locked) ->
  slippageWithin st locked = true -> slippageWithin st' locked = true.
Proof.
  unfold slippageWithin, strict_eq, le, Math_abs. intros Hb Hd.
  destruct (Qeq_bool locked 0) eqn:E; [discriminate|].
  apply Qeq_bool_neq in E. rewrite Hb, !Qle_bool_iff.
  rewrite !(abs_quotient _ locked E).
  pose proof (Qabs_positive locked E) as Hp. intros H.
  eapply Qle_trans; [|exact H].
  apply Qmult_le_compat_r; [|discriminate].
  unfold Qdiv. apply Qmult_le_compat_r; [exact Hd|].
  apply Qlt_le_weak. now apply Qinv_lt_0_compat.
Qed.

Lemma slippage_monotone_in_distance_witness :
  slippageWithin (locked_at 150 (1495 # 10)) 150 = true.
Proof.
  apply (slippage_monotone_in_distance (locked_at 150 (1505 # 10))
           (locked_at 150 (1495 # 10)) 150); reflexivity || discriminate.
Defined.
